(** * create-js-backend: the project generator's command-line driver

    A shallow embedding of the CLI driver (the [program.action] callback of
    the tool's entry script) and the properties of its observable contract:
    the manifest merge, the exit statuses, the abort path, the tolerated
    failures of the two child processes and the closing summary.

    The driver is a straight-line asynchronous script over four external
    facilities: the file system (fs-extra), the terminal prompts
    (inquirer), the console with its spinners (chalk, ora) and child
    processes (execa).  It is embedded as a state-and-exception monad over
    a [World]; what the operator types and which external calls fail are
    read from an [Env]. *)

From Stdlib Require Import Ascii.
From stdpp Require Import gmap strings list.

Set Warnings "-register-all".
Set Default Proof Using "Type".

(** ** Values, paths and the disk *)

(** JSON values, as [fs.readJson] produces them and [fs.writeJson] stores
    them.  A number is kept by its canonical decimal rendering. *)
Inductive json :=
  | JNull
  | JBool (b : bool)
  | JNum (literal : string)
  | JStr (s : string)
  | JArr (items : list json)
  | JObj (fields : gmap string json).

(** JavaScript truthiness of a property that may be absent ([None] is
    [undefined]). *)
Definition truthy (v : option json) : bool :=
  match v with
  | None | Some JNull | Some (JBool false) | Some (JStr "") => false
  | Some (JNum n) => negb (bool_decide (n = "0"))
  | Some _ => true
  end.

(** A normalised absolute POSIX path: its components below the root. *)
Definition path : Type := list string.

(** The components of a string between its slashes. *)
Fixpoint segments (s : string) : list string :=
  match s with
  | EmptyString => [""]
  | String c rest =>
      if bool_decide (c = "/"%char) then "" :: segments rest
      else match segments rest with
           | seg :: more => String c seg :: more
           | [] => [String c ""]
           end
  end.

Definition push_segment (p : path) (seg : string) : path :=
  if bool_decide (seg = "") then p
  else if bool_decide (seg = ".") then p
  else if bool_decide (seg = "..") then removelast p
  else p ++ [seg].

(** [path.join(base, rel)] for a normalised absolute [base]. *)
Definition path_join (base : path) (rel : string) : path :=
  foldl push_segment base (segments rel).

(** [path.basename]. *)
Definition path_basename (p : path) : string := List.last p "".

Definition show_path (p : path) : string :=
  match p with
  | [] => "/"
  | _ => String.concat "" (List.map (fun seg => "/" +:+ seg) p)
  end.

Fixpoint strip_prefix (pre p : path) : option path :=
  match pre, p with
  | [], _ => Some p
  | a :: pre', b :: p' => if bool_decide (a = b) then strip_prefix pre' p' else None
  | _ :: _, [] => None
  end.

Inductive content :=
  | Json (v : json)
  | Blob (bytes : string).

Inductive node :=
  | Dir
  | File (c : content).

(** The file system: what is found at each path. *)
Definition Disk : Type := path → option node.

Definition disk_remove (target : path) (d : Disk) : Disk :=
  fun p =>
    match strip_prefix target p with
    | Some _ => None
    | None => d p
    end.

(** Recursive copy with overwrite: every entry below [src] lands at the
    same place below [dst]; what [dst] held elsewhere stays. *)
Definition disk_copy (src dst : path) (d : Disk) : Disk :=
  fun p =>
    match strip_prefix dst p with
    | Some rel =>
        match d (src ++ rel) with
        | Some n => Some n
        | None => d p
        end
    | None => d p
    end.

Definition disk_write (target : path) (n : node) (d : Disk) : Disk :=
  fun p => if bool_decide (p = target) then Some n else d p.

Definition empty_disk : Disk := fun _ => None.

(** ** Errors, console and effects *)

Inductive error :=
  | Failure (msg : string)
  | NoEntry (syscall : string) (p : path)
  | NotDirectory (syscall : string) (p : path)
  | NotJson (p : path)
  | TypeError (msg : string).

Definition squote : string := "'".

(** [err.message]. *)
Definition message (e : error) : string :=
  match e with
  | Failure msg => msg
  | NoEntry syscall p =>
      "ENOENT: no such file or directory, " +:+ syscall +:+ " " +:+ squote +:+ show_path p +:+ squote
  | NotDirectory syscall p =>
      "ENOTDIR: not a directory, " +:+ syscall +:+ " " +:+ squote +:+ show_path p +:+ squote
  | NotJson p => show_path p +:+ ": Unexpected token in JSON"
  | TypeError msg => msg
  end.

Inductive colour := Blue | Yellow | Green | Red | Magenta | Gray | Cyan.

(** A string as chalk hands it to the console. *)
Record styled := Styled { ink : option colour; text : string }.

Definition chalk (c : colour) (s : string) : styled := Styled (Some c) s.
Definition plain (s : string) : styled := Styled None s.

(** What the terminal shows, in order. *)
Inductive entry :=
  | Log (t : styled)
  | LogError (t : styled)
  | SpinStart (t : styled)
  | SpinSucceed (t : styled)
  | SpinFail (t : styled)
  | Prompt (name msg : string)
  | Invalid (msg : string)
  | Answer (name : string) (v : json).

(** The external calls the driver makes, in order. *)
Inductive effect :=
  | ExistsSync (p : path)
  | Remove (p : path)
  | Copy (src dst : path)
  | Chdir (p : path)
  | ReadJson (p : path)
  | WriteJson (p : path) (v : json)
  | Execa (file : string) (args : list string) (cwd : path).

Record World := MkWorld {
  disk : Disk;
  cwd : path;
  console : list entry;
  trace : list effect
}.

Definition set_disk (d : Disk) (w : World) : World :=
  MkWorld d (cwd w) (console w) (trace w).
Definition set_cwd (p : path) (w : World) : World :=
  MkWorld (disk w) p (console w) (trace w).
Definition show (e : entry) (w : World) : World :=
  MkWorld (disk w) (cwd w) (console w ++ [e]) (trace w).
Definition shows (es : list entry) (w : World) : World :=
  MkWorld (disk w) (cwd w) (console w ++ es) (trace w).
Definition record (e : effect) (w : World) : World :=
  MkWorld (disk w) (cwd w) (console w) (trace w ++ [e]).

(** A fresh process started in directory [dir] on disk [d]. *)
Definition start (d : Disk) (dir : path) : World := MkWorld d dir [] [].

(** ** The operator and the environment *)

Inductive key := Up | Down.

(** What the operator submits to one prompt: a yes/no reply (or a bare
    Enter), a line of text, or arrow keys followed by Enter. *)
Inductive response :=
  | Reply (yes : option bool)
  | Line (typed : string)
  | Keys (ks : list key).

(** The external calls that can fail. *)
Inductive api := FsRemove | FsCopy | FsReadJson | FsWriteJson | NpmInstall | GitInit.

Record Env := MkEnv {
  __dirname : path;
  (** the operator's successive submissions to the prompt of each name *)
  operator : string → list response;
  (** the message of the error an external call fails with, if it fails *)
  fault : api → option string
}.

(** ** The monad of the script *)

Inductive result (A : Type) : Type :=
  | Done (a : A)
  | Thrown (e : error)
  | Exited (code : Z)
  | Pending.
Arguments Done {A} a.
Arguments Thrown {A} e.
Arguments Exited {A} code.
Arguments Pending {A}.

Definition M (A : Type) : Type := World → result A * World.

Definition ret {A} (a : A) : M A := fun w => (Done a, w).

Definition bind {A B} (c : M A) (k : A → M B) : M B :=
  fun w =>
    match c w with
    | (Done a, w') => k a w'
    | (Thrown e, w') => (Thrown e, w')
    | (Exited code, w') => (Exited code, w')
    | (Pending, w') => (Pending, w')
    end.

Notation "'let!' x ':=' c 'in' k" := (bind c (fun x => k))
  (at level 10, x name, c at level 100, k at level 200).
Notation "c ';;;' k" := (bind c (fun _ => k))
  (at level 100, k at level 200, right associativity).

Definition throw {A} (e : error) : M A := fun w => (Thrown e, w).

(** [try { body } catch (err) { handler }]: only a thrown error reaches the
    handler; [process.exit] and an unanswered prompt do not. *)
Definition try_catch {A} (body : M A) (handler : error → M A) : M A :=
  fun w =>
    match body w with
    | (Thrown e, w') => handler e w'
    | other => other
    end.

Definition process_exit {A} (code : Z) : M A := fun w => (Exited code, w).
Definition process_cwd : M path := fun w => (Done (cwd w), w).
Definition perform (f : World → World) : M unit := fun w => (Done tt, f w).

Definition console_log (t : styled) : M unit := perform (show (Log t)).
Definition console_error (t : styled) : M unit := perform (show (LogError t)).

(** ora: a spinner is started with a text and ends on a success or a
    failure line. *)
Definition ora_start (t : styled) : M unit := perform (show (SpinStart t)).
Definition succeed (t : styled) : M unit := perform (show (SpinSucceed t)).
Definition fail (t : styled) : M unit := perform (show (SpinFail t)).

(** ** inquirer

    The prompt library is a dependency of the tool.  Its three kinds of
    question are embedded after its behaviour: [type: "confirm"],
    [type: "input"] and [type: "list"], each with a [name], a [message]
    and a [default]; an input question may carry a validator, which
    returns [true] or the message to show, and a list question carries its
    choices. *)

Inductive validation :=
  | Valid
  | Rejected (msg : string).

Inductive question :=
  | Confirm (name msg : string) (default : bool)
  | Input (name msg : string) (default : string) (validate : option (string → validation))
  | Choice (name msg : string) (choices : list string) (default : string).

Definition question_name (q : question) : string :=
  match q with
  | Confirm name _ _ | Input name _ _ _ | Choice name _ _ _ => name
  end.

Definition question_message (q : question) : string :=
  match q with
  | Confirm _ msg _ | Input _ msg _ _ | Choice _ msg _ _ => msg
  end.

(** What an input prompt makes of the line submitted. *)
Definition filterInput (default typed : string) : string :=
  if bool_decide (typed = "") then default else typed.

(** An input prompt: an empty line stands for the default; the value is
    then validated, and a rejected one leaves the prompt open for the next
    line.  Returns the validation errors shown and the value settled on,
    if any. *)
Fixpoint input_prompt (default : string) (validate : string → validation)
    (rs : list response) : list entry * option string :=
  match rs with
  | Line typed :: rs' =>
      let value := filterInput default typed in
      match validate value with
      | Valid => ([], Some value)
      | Rejected msg =>
          let '(shown, a) := input_prompt default validate rs' in
          (Invalid msg :: shown, a)
      end
  | _ => ([], None)
  end.

(** The position of [x] in [l]. *)
Fixpoint position (x : string) (l : list string) : option nat :=
  match l with
  | [] => None
  | y :: l' => if bool_decide (x = y) then Some 0 else S <$> position x l'
  end.

(** One arrow key on a list of [n] choices; the cursor wraps around. *)
Definition move (n : nat) (cursor : nat) (k : key) : nat :=
  match k with
  | Up => match cursor with 0 => n - 1 | S c => c end
  | Down => if bool_decide (S cursor < n) then S cursor else 0
  end.

(** A list prompt: the cursor starts on the default (on the first choice
    when the default is none of them) and the choice under it is taken on
    Enter. *)
Definition list_prompt (choices : list string) (default : string) (ks : list key)
    : option string :=
  let first := match position default choices with Some i => i | None => 0 end in
  choices !! foldl (move (length choices)) first ks.

(** A confirm prompt: a bare Enter stands for the default. *)
Definition confirm_prompt (default : bool) (rs : list response) : option bool :=
  match rs with
  | Reply (Some yes) :: _ => Some yes
  | Reply None :: _ => Some default
  | _ => None
  end.

(** A prompt settles on an answer, or stays open when the operator has
    nothing (more) to submit to it. *)
Definition ask (q : question) (rs : list response) : list entry * option json :=
  match q with
  | Confirm _ _ default => ([], JBool <$> confirm_prompt default rs)
  | Input _ _ default validate =>
      let check := match validate with Some f => f | None => fun _ => Valid end in
      let '(shown, a) := input_prompt default check rs in
      (shown, JStr <$> a)
  | Choice _ _ choices default =>
      match rs with
      | Keys ks :: _ => ([], JStr <$> list_prompt choices default ks)
      | _ => ([], None)
      end
  end.

(** ** fs-extra, process and execa

    Dependencies too.  A call fails with the error the environment holds
    for it, or for want of the file it needs; otherwise it has its effect
    on the disk.  Every call is entered in the trace when it is made. *)

Section Driver.

Variable env : Env.

(** The error an external call is made to fail with, if any. *)
Definition failing (a : api) : option error := Failure <$> fault env a.

Definition fs_existsSync (p : path) : M bool :=
  fun w => (Done (bool_decide (is_Some (disk w p))), record (ExistsSync p) w).

(** [fs.remove]: deletes the path with all that lies below it; an absent
    path is not an error. *)
Definition fs_remove (p : path) : M unit :=
  fun w =>
    let w := record (Remove p) w in
    match failing FsRemove with
    | Some e => (Thrown e, w)
    | None => (Done tt, set_disk (disk_remove p (disk w)) w)
    end.

(** [fs.copy(src, dst, {overwrite: true})]. *)
Definition fs_copy (src dst : path) : M unit :=
  fun w =>
    let w := record (Copy src dst) w in
    match failing FsCopy with
    | Some e => (Thrown e, w)
    | None =>
        match disk w src with
        | None => (Thrown (NoEntry "lstat" src), w)
        | Some _ => (Done tt, set_disk (disk_copy src dst (disk w)) w)
        end
    end.

(** [process.chdir]. *)
Definition process_chdir (p : path) : M unit :=
  fun w =>
    let w := record (Chdir p) w in
    match disk w p with
    | Some Dir => (Done tt, set_cwd p w)
    | Some (File _) => (Thrown (NotDirectory "chdir" p), w)
    | None => (Thrown (NoEntry "chdir" p), w)
    end.

(** [fs.readJson]. *)
Definition fs_readJson (p : path) : M json :=
  fun w =>
    let w := record (ReadJson p) w in
    match failing FsReadJson with
    | Some e => (Thrown e, w)
    | None =>
        match disk w p with
        | Some (File (Json v)) => (Done v, w)
        | Some (File (Blob _)) => (Thrown (NotJson p), w)
        | Some Dir => (Thrown (Failure "EISDIR: illegal operation on a directory, read"), w)
        | None => (Thrown (NoEntry "open" p), w)
        end
    end.

(** [fs.writeJson(p, v, {spaces: 2})]; the indentation is a matter of the
    text, not of the value stored. *)
Definition fs_writeJson (p : path) (v : json) : M unit :=
  fun w =>
    let w := record (WriteJson p v) w in
    match failing FsWriteJson with
    | Some e => (Thrown e, w)
    | None => (Done tt, set_disk (disk_write p (File (Json v)) (disk w)) w)
    end.

(** [execa(file, args, {cwd})]: rejects when the child exits non-zero.
    What the child does to the disk is its own affair. *)
Definition execa (a : api) (file : string) (args : list string) (dir : path) : M unit :=
  fun w =>
    let w := record (Execa file args dir) w in
    match failing a with
    | Some e => (Thrown e, w)
    | None => (Done tt, w)
    end.

(** [inquirer.prompt] on one question: the question is shown, then the
    validation errors of the rejected submissions, then the answer. *)
Definition prompt_one (q : question) : M json :=
  fun w =>
    let w := show (Prompt (question_name q) (question_message q)) w in
    let '(shown, a) := ask q (operator env (question_name q)) in
    let w := shows shown w in
    match a with
    | Some v => (Done v, show (Answer (question_name q) v) w)
    | None => (Pending, w)
    end.

(** [inquirer.prompt(questions)]: the questions are asked one after the
    other; the answers object has one property per question, in the order
    asked (the names are distinct in each of the driver's three calls). *)
Fixpoint inquirer_prompt (qs : list question) : M (list (string * json)) :=
  match qs with
  | [] => ret []
  | q :: qs' =>
      let! a := prompt_one q in
      let! rest := inquirer_prompt qs' in
      ret ((question_name q, a) :: rest)
  end.

(** Property access on an answers object. *)
Fixpoint property (name : string) (answers : list (string * json)) : option json :=
  match answers with
  | [] => None
  | (k, v) :: more => if bool_decide (k = name) then Some v else property name more
  end.

(** Setting the properties of [source] on an object, one after the other. *)
Definition set_properties (fields : gmap string json) (source : list (string * json))
    : gmap string json :=
  foldl (fun m kv => <[kv.1 := kv.2]> m) fields source.

(** [Object.assign(target, source)], seen through what [target] serialises
    to afterwards: each property of [source] is set on an object in turn;
    [null] cannot be converted to an object; properties set on an array
    are not elements of it, and a primitive is boxed and stays as it was. *)
Definition object_assign (target : json) (source : list (string * json)) : M json :=
  match target with
  | JNull => throw (TypeError "Cannot convert undefined or null to object")
  | JObj fields => ret (JObj (set_properties fields source))
  | other => ret other
  end.

(** ** The driver *)

Definition nl : string := String "010"%char EmptyString.
Definition dquote : string := String "034"%char EmptyString.

(** Check if directory already exists. *)
Definition check_existing (initialProjectName : string) (targetDir : path) : M unit :=
  let! found := fs_existsSync targetDir in
  if found then
    let! answers := inquirer_prompt
      [ Confirm "overwrite"
          ("Directory " +:+ dquote +:+ initialProjectName +:+ dquote
             +:+ " already exists. Overwrite?")
          false ] in
    let overwrite := property "overwrite" answers in
    if truthy overwrite then
      ora_start (chalk Yellow "Removing existing directory...") ;;;
      try_catch
        (fs_remove targetDir ;;;
         succeed (chalk Green "Existing directory removed."))
        (fun err =>
           fail (chalk Red "Failed to remove existing directory.") ;;;
           console_error (chalk Red (message err)) ;;;
           process_exit 1)
    else
      console_log (chalk Yellow "Aborting project creation.") ;;;
      process_exit 0
  else ret tt.

(** 1. Scaffolding: copy boilerplate files. *)
Definition scaffolding (boilerplateDir targetDir : path) : M unit :=
  ora_start (plain "Copying boilerplate files...") ;;;
  try_catch
    (fs_copy boilerplateDir targetDir ;;;
     succeed (chalk Green "Boilerplate copied!"))
    (fun err =>
       fail (chalk Red "Error copying boilerplate!") ;;;
       console_error (chalk Red (message err)) ;;;
       process_exit 1).

(** The validator of the package name prompt:
    [input.length > 0 || "Package name cannot be empty."]. *)
Definition validate_name (input : string) : validation :=
  if bool_decide (0 < String.length input) then Valid
  else Rejected "Package name cannot be empty.".

Definition license_choices : list string := ["ISC"; "MIT"; "UNLICENSED"].

(** The questions of the metadata prompt. *)
Definition npmInitQuestions (targetDir : path) : list question :=
  [ Input "name" "package name:" (path_basename targetDir) (Some validate_name);
    Input "description" "description:"
      "Boilerplate for JavaScript backend application" None;
    Input "version" "version:" "1.0.0" None;
    Input "author" "author:" "" None;
    Choice "license" "license:" license_choices "ISC";
    Input "main" "entry point:" "index.js" None ].

(** 2. Interactive npm init for project metadata. *)
Definition metadata_setup (targetDir : path) : M (list (string * json)) :=
  console_log (chalk Magenta (nl +:+ "--- Project Metadata Setup ---")) ;;;
  console_log (chalk Gray "This will guide you through setting up package.json.") ;;;
  inquirer_prompt (npmInitQuestions targetDir).

(** Read the package.json that was copied from boilerplate, merge the
    answers over it and write it back. *)
Definition update_manifest (targetDir : path) (npmInitAnswers : list (string * json))
    : M unit :=
  let packageJsonPath := path_join targetDir "package.json" in
  let! packageJson := fs_readJson packageJsonPath in
  let! packageJson := object_assign packageJson npmInitAnswers in
  fs_writeJson packageJsonPath packageJson ;;;
  console_log (chalk Green "package.json updated with your details!").

(** 3. Dependency installation, if the operator wants it. *)
Definition dependency_installation (targetDir : path) (installDeps : option json) : M unit :=
  if truthy installDeps then
    ora_start (plain "Installing npm dependencies...") ;;;
    try_catch
      (execa NpmInstall "npm" ["install"] targetDir ;;;
       succeed (chalk Green "Dependencies installed!"))
      (fun err =>
         fail (chalk Red "Dependency installation failed!") ;;;
         console_error (chalk Red (message err)))
  else ret tt.

(** 4. Git initialization. *)
Definition git_initialization (targetDir : path) : M unit :=
  ora_start (plain "Initializing Git repository...") ;;;
  try_catch
    (execa GitInit "git" ["init"] targetDir ;;;
     succeed (chalk Green "Git repository initialized!"))
    (fun err =>
       fail (chalk Red "Git initialization failed!") ;;;
       console_error (chalk Red (message err))).

(** Final success message and next steps. *)
Definition summary (initialProjectName : string) (installDeps : option json) : M unit :=
  console_log (chalk Green
    (nl +:+ "ðŸŽ‰ Project " +:+ dquote +:+ initialProjectName +:+ dquote
        +:+ " created successfully!")) ;;;
  console_log (chalk Cyan (nl +:+ "Next steps:")) ;;;
  console_log (chalk Cyan ("  cd " +:+ initialProjectName)) ;;;
  (if negb (truthy installDeps) then console_log (chalk Cyan "  npm install")
   else ret tt) ;;;
  console_log (chalk Cyan "  npm run dev (or npm start)") ;;;
  console_log (chalk Cyan "  Don't forget to configure your .env file!") ;;;
  console_log (plain (nl +:+ "Happy coding!")).

(** The action of the command, on its one argument. *)
Definition action (initialProjectName : string) : M unit :=
  let! here := process_cwd in
  let targetDir := path_join here initialProjectName in
  let boilerplateDir := path_join (__dirname env) "boilerplate" in
  console_log (chalk Blue (nl +:+ "Creating new project: " +:+ initialProjectName +:+ nl)) ;;;
  check_existing initialProjectName targetDir ;;;
  scaffolding boilerplateDir targetDir ;;;
  process_chdir targetDir ;;;
  let! npmInitAnswers := metadata_setup targetDir in
  update_manifest targetDir npmInitAnswers ;;;
  let! otherAnswers := inquirer_prompt
    [ Confirm "installDeps" "Install npm dependencies (npm install)?" true ] in
  let installDeps := property "installDeps" otherAnswers in
  dependency_installation targetDir installDeps ;;;
  git_initialization targetDir ;;;
  summary initialProjectName installDeps.

End Driver.

(** A run of the tool on argument [initialProjectName], started in
    directory [dir] on disk [d]. *)
Definition run (env : Env) (initialProjectName : string) (d : Disk) (dir : path)
    : result unit * World :=
  action env initialProjectName (start d dir).

(** The exit status of the process: 0 when the action runs to its end,
    the argument of [process.exit] otherwise.  A rejection nobody handles
    and a prompt left open have none of the driver's making. *)
Definition exit_status {A} (r : result A) : option Z :=
  match r with
  | Done _ => Some 0%Z
  | Exited code => Some code
  | Thrown _ | Pending => None
  end.

(** * The vocabulary of the statements *)

(** [wp c Q w]: running [c] from [w] ends in a result and a world that
    satisfy [Q]. *)
Definition wp {A} (c : M A) (Q : result A → World → Prop) (w : World) : Prop :=
  Q (c w).1 (c w).2.

(** What [bind] leaves of a result that is not [Done]. *)
Definition carry {A B} (r : result A) : result B :=
  match r with
  | Done _ => Pending
  | Thrown e => Thrown e
  | Exited code => Exited code
  | Pending => Pending
  end.

(** The entries a prompt puts on the terminal. *)
Definition prompt_entry (e : entry) : Prop :=
  match e with
  | Prompt _ _ | Invalid _ | Answer _ _ => True
  | _ => False
  end.

(** The names of the questions shown, in order. *)
Definition prompts (es : list entry) : list string :=
  omap (fun e => match e with Prompt name _ => Some name | _ => None end) es.

(** [answered q a]: from what the operator submits to it, the prompt of
    question [q] settles on the answer [a]. *)
Definition answered (env : Env) (q : question) (a : json) : Prop :=
  (ask q (operator env (question_name q))).2 = Some a.

(** The values [Object.assign] boxes: neither an object nor [null]. *)
Definition boxed (v : json) : Prop :=
  match v with
  | JNull | JObj _ => False
  | _ => True
  end.

(** The answers object of a call of [inquirer.prompt]. *)
Definition answers_to env (qs : list question) (answers : list (string * json)) : Prop :=
  Forall2 (fun q kv => kv.1 = question_name q ∧ answered env q kv.2) qs answers.

(** The lines of the console the statements name. *)
Definition creating (initialProjectName : string) : entry :=
  Log (chalk Blue (nl +:+ "Creating new project: " +:+ initialProjectName +:+ nl)).

Definition overwrite_question (initialProjectName : string) : string :=
  "Directory " +:+ dquote +:+ initialProjectName +:+ dquote +:+ " already exists. Overwrite?".

Definition npm_install_hint : entry := Log (chalk Cyan "  npm install").

Definition npm_install (targetDir : path) : effect := Execa "npm" ["install"] targetDir.
Definition git_init (targetDir : path) : effect := Execa "git" ["init"] targetDir.

(** The summary printed when the installation was not declined. *)
Definition completion_summary (initialProjectName : string) : list entry :=
  [ Log (chalk Green
      (nl +:+ "ðŸŽ‰ Project " +:+ dquote +:+ initialProjectName +:+ dquote
          +:+ " created successfully!"));
    Log (chalk Cyan (nl +:+ "Next steps:"));
    Log (chalk Cyan ("  cd " +:+ initialProjectName));
    Log (chalk Cyan "  npm run dev (or npm start)");
    Log (chalk Cyan "  Don't forget to configure your .env file!");
    Log (plain (nl +:+ "Happy coding!")) ].

(** The six fields of the manifest that the metadata prompt collects. *)
Definition collected : list string :=
  ["name"; "description"; "version"; "author"; "license"; "main"].

(** The answers of an operator who leaves every prompt at its default. *)
Definition default_answers (targetDir : path) : list (string * json) :=
  [ ("name", JStr (path_basename targetDir));
    ("description", JStr "Boilerplate for JavaScript backend application");
    ("version", JStr "1.0.0");
    ("author", JStr "");
    ("license", JStr "ISC");
    ("main", JStr "index.js") ].

(** The entries by which the script reports a failure. *)
Definition reports_failure (e : entry) : bool :=
  match e with
  | LogError _ | SpinFail _ => true
  | _ => false
  end.

(** The script up to the point where the operator has said whether the
    dependencies are to be installed, and the rest of it. *)
Definition front env (initialProjectName : string) : M (path * option json) :=
  let! here := process_cwd in
  let targetDir := path_join here initialProjectName in
  let boilerplateDir := path_join (__dirname env) "boilerplate" in
  console_log (chalk Blue (nl +:+ "Creating new project: " +:+ initialProjectName +:+ nl)) ;;;
  check_existing env initialProjectName targetDir ;;;
  scaffolding env boilerplateDir targetDir ;;;
  process_chdir targetDir ;;;
  let! npmInitAnswers := metadata_setup env targetDir in
  update_manifest env targetDir npmInitAnswers ;;;
  let! otherAnswers := inquirer_prompt env
    [ Confirm "installDeps" "Install npm dependencies (npm install)?" true ] in
  ret (targetDir, property "installDeps" otherAnswers).

Definition finish env (initialProjectName : string) (targetDir : path)
    (installDeps : option json) : M unit :=
  dependency_installation env targetDir installDeps ;;;
  git_initialization env targetDir ;;;
  summary initialProjectName installDeps.

(** The environment in which the two child processes end as given. *)
Definition with_subprocesses (npm git : option string) (env : Env) : Env :=
  MkEnv (__dirname env) (operator env)
    (fun a => match a with
              | NpmInstall => npm
              | GitInit => git
              | other => fault env other
              end).

(** ** A sample installation *)

Module Demo.

Definition tool : path := ["usr"; "lib"; "node_modules"; "create-js-backend"].
Definition home : path := ["home"; "dev"].

(** The manifest shipped in the boilerplate. *)
Definition manifest : gmap string json :=
  <["name" := JStr "boilerplate"]>
    (<["version" := JStr "0.0.0"]>
       (<["type" := JStr "module"]>
          (<["scripts" := JObj (<["dev" := JStr "nodemon src/index.js"]> ∅)]> ∅))).

Definition installed : Disk :=
  disk_write (tool ++ ["boilerplate"; "package.json"]) (File (Json (JObj manifest)))
    (disk_write (tool ++ ["boilerplate"; "src"; "index.js"])
       (File (Blob "import dotenv from 'dotenv'"))
       (disk_write (tool ++ ["boilerplate"; "src"]) Dir
          (disk_write (tool ++ ["boilerplate"]) Dir
             (disk_write home Dir empty_disk)))).

(** The same with a directory [demo] already in the home directory, and
    with a boilerplate that lacks its manifest. *)
Definition occupied : Disk := disk_write (home ++ ["demo"]) Dir installed.
Definition bare : Disk := disk_remove (tool ++ ["boilerplate"; "package.json"]) installed.

(** An operator who answers every prompt with a bare Enter. *)
Definition enter (name : string) : list response :=
  if bool_decide (name = "license") then [Keys []]
  else if bool_decide (name = "overwrite") then [Reply None]
  else if bool_decide (name = "installDeps") then [Reply None]
  else [Line ""].

(** One who names the author, picks the MIT license and declines the
    installation. *)
Definition careful (name : string) : list response :=
  if bool_decide (name = "license") then [Keys [Down]]
  else if bool_decide (name = "overwrite") then [Reply (Some true)]
  else if bool_decide (name = "installDeps") then [Reply (Some false)]
  else if bool_decide (name = "author") then [Line "Ada"]
  else [Line ""].

Definition env : Env := MkEnv tool enter (fun _ => None).
Definition careful_env : Env := MkEnv tool careful (fun _ => None).

Definition npm_fails : Env :=
  MkEnv tool enter
    (fun a => match a with
              | NpmInstall => Some "Command failed with exit code 1: npm install"
              | _ => None
              end).

Definition disk_full : Env :=
  MkEnv tool enter
    (fun a => match a with
              | FsWriteJson => Some "ENOSPC: no space left on device, write"
              | _ => None
              end).

Definition copy_fails : Env :=
  MkEnv tool enter
    (fun a => match a with
              | FsCopy => Some "EACCES: permission denied, mkdir"
              | _ => None
              end).

End Demo.

(** ** Vocabulary of the further properties *)

(** Neither path lies at or below the other. *)
Definition apart (p q : path) : Prop :=
  strip_prefix p q = None ∧ strip_prefix q p = None.

(** What [Object.assign] leaves in [packageJson] to be written. *)
Definition merged (v : json) (answers : list (string * json)) : json :=
  match v with
  | JObj fields => JObj (set_properties fields answers)
  | other => other
  end.

(** The external calls of a run that completes, in order. *)
Definition calls (boilerplateDir targetDir : path) (existed installed : bool)
    (written : json) : list effect :=
  [ExistsSync targetDir]
    ++ (if existed then [Remove targetDir] else [])
    ++ [ Copy boilerplateDir targetDir;
         Chdir targetDir;
         ReadJson (targetDir ++ ["package.json"]);
         WriteJson (targetDir ++ ["package.json"]) written ]
    ++ (if installed then [npm_install targetDir] else [])
    ++ [git_init targetDir].

Definition created_successfully (initialProjectName : string) : entry :=
  Log (chalk Green
    (nl +:+ "ðŸŽ‰ Project " +:+ dquote +:+ initialProjectName +:+ dquote
        +:+ " created successfully!")).

(** The summary, with the install hint when the installation was declined. *)
Definition closing_summary (initialProjectName : string) (declined : bool) : list entry :=
  [ created_successfully initialProjectName;
    Log (chalk Cyan (nl +:+ "Next steps:"));
    Log (chalk Cyan ("  cd " +:+ initialProjectName)) ]
    ++ (if declined then [npm_install_hint] else [])
    ++ [ Log (chalk Cyan "  npm run dev (or npm start)");
         Log (chalk Cyan "  Don't forget to configure your .env file!");
         Log (plain (nl +:+ "Happy coding!")) ].

Fixpoint slash_free (s : string) : bool :=
  match s with
  | EmptyString => true
  | String c rest => negb (bool_decide (c = "/"%char)) && slash_free rest
  end.

(** A component of a normalised path: a name, not a step. *)
Definition component (s : string) : Prop :=
  s ≠ "" ∧ s ≠ "." ∧ s ≠ ".." ∧ slash_free s = true.

Definition normalised (p : path) : Prop := Forall component p.

(** Further cases of the sample installation. *)
Module Cases.

(** The home directory with a [demo] directory that holds an old file. *)
Definition cluttered : Disk :=
  disk_write (Demo.home ++ ["demo"; "notes.txt"]) (File (Blob "to do")) Demo.occupied.

(** An installation whose boilerplate manifest is an array. *)
Definition listed : Disk :=
  disk_write (Demo.tool ++ ["boilerplate"; "package.json"]) (File (Json (JArr [])))
    Demo.installed.

Definition git_fails : Env :=
  MkEnv Demo.tool Demo.careful
    (fun a => match a with
              | GitInit => Some "Command failed with exit code 127: git init"
              | _ => None
              end).

End Cases.

(** * Properties *)

(** ** Reasoning about the script *)

Lemma wp_bind {A B} (c : M A) (k : A → M B) Q w :
  wp c (fun r w' => match r with
                    | Done a => wp (k a) Q w'
                    | _ => Q (carry r) w'
                    end) w →
  wp (bind c k) Q w.
Proof.
  unfold wp, bind. destruct (c w) as [[a|e|code|] w']; simpl; auto.
Qed.

Lemma wp_try_catch {A} (body : M A) (handler : error → M A) Q w :
  wp body (fun r w' => match r with
                       | Thrown e => wp (handler e) Q w'
                       | _ => Q r w'
                       end) w →
  wp (try_catch body handler) Q w.
Proof.
  unfold wp, try_catch. destruct (body w) as [[a|e|code|] w']; simpl; auto.
Qed.

Lemma shows_nil w : shows [] w = w.
Proof. destruct w. unfold shows. simpl. by rewrite app_nil_r. Qed.

Lemma shows_shows es1 es2 w : shows es2 (shows es1 w) = shows (es1 ++ es2) w.
Proof. unfold shows. simpl. by rewrite app_assoc. Qed.

Lemma show_shows e es w : show e (shows es w) = shows (es ++ [e]) w.
Proof. unfold show, shows. simpl. by rewrite app_assoc. Qed.

Lemma shows_show e es w : shows es (show e w) = shows (e :: es) w.
Proof. unfold show, shows. simpl. by rewrite <- app_assoc. Qed.

Lemma wp_ret {A} (a : A) Q w : Q (Done a) w → wp (ret a) Q w.
Proof. exact id. Qed.

Lemma wp_perform f Q w : Q (Done tt) (f w) → wp (perform f) Q w.
Proof. exact id. Qed.

Lemma wp_process_cwd Q w : Q (Done (cwd w)) w → wp process_cwd Q w.
Proof. exact id. Qed.

Lemma wp_process_exit {A} code (Q : result A → World → Prop) w :
  Q (Exited code) w → wp (process_exit code) Q w.
Proof. exact id. Qed.

Lemma wp_throw {A} e (Q : result A → World → Prop) w :
  Q (Thrown e) w → wp (throw e) Q w.
Proof. exact id. Qed.

Lemma wp_if {A} (b : bool) (c1 c2 : M A) Q w :
  (b = true → wp c1 Q w) → (b = false → wp c2 Q w) →
  wp (if b then c1 else c2) Q w.
Proof. destruct b; auto. Qed.

Section Facts.

Variable env : Env.

Lemma wp_fs_existsSync p Q w :
  Q (Done (bool_decide (is_Some (disk w p)))) (record (ExistsSync p) w) →
  wp (fs_existsSync p) Q w.
Proof. exact id. Qed.

Lemma wp_fs_remove p Q w :
  (∀ msg, fault env FsRemove = Some msg →
     Q (Thrown (Failure msg)) (record (Remove p) w)) →
  (fault env FsRemove = None →
     Q (Done tt) (set_disk (disk_remove p (disk w)) (record (Remove p) w))) →
  wp (fs_remove env p) Q w.
Proof.
  unfold wp, fs_remove, failing. destruct (fault env FsRemove); simpl; auto.
Qed.

Lemma wp_fs_copy src dst Q w :
  (∀ msg, fault env FsCopy = Some msg →
     Q (Thrown (Failure msg)) (record (Copy src dst) w)) →
  (fault env FsCopy = None → disk w src = None →
     Q (Thrown (NoEntry "lstat" src)) (record (Copy src dst) w)) →
  (fault env FsCopy = None → is_Some (disk w src) →
     Q (Done tt) (set_disk (disk_copy src dst (disk w)) (record (Copy src dst) w))) →
  wp (fs_copy env src dst) Q w.
Proof.
  unfold wp, fs_copy, failing. destruct (fault env FsCopy); simpl; auto.
  destruct (disk w src) eqn:E; simpl; eauto.
Qed.

Lemma wp_process_chdir p Q w :
  (disk w p = Some Dir → Q (Done tt) (set_cwd p (record (Chdir p) w))) →
  (∀ e, disk w p ≠ Some Dir → Q (Thrown e) (record (Chdir p) w)) →
  wp (process_chdir p) Q w.
Proof.
  unfold wp, process_chdir. simpl.
  destruct (disk w p) as [[|c]|] eqn:E; simpl; auto.
Qed.

Lemma wp_fs_readJson p Q w :
  (∀ v, failing env FsReadJson = None → disk w p = Some (File (Json v)) →
     Q (Done v) (record (ReadJson p) w)) →
  (∀ e, Q (Thrown e) (record (ReadJson p) w)) →
  wp (fs_readJson env p) Q w.
Proof.
  unfold wp, fs_readJson. destruct (failing env FsReadJson); simpl; auto.
  destruct (disk w p) as [[|[v|b]]|] eqn:E; simpl; auto.
Qed.

Lemma wp_fs_writeJson p v Q w :
  (∀ msg, fault env FsWriteJson = Some msg →
     Q (Thrown (Failure msg)) (record (WriteJson p v) w)) →
  (fault env FsWriteJson = None →
     Q (Done tt) (set_disk (disk_write p (File (Json v)) (disk w)) (record (WriteJson p v) w))) →
  wp (fs_writeJson env p v) Q w.
Proof.
  unfold wp, fs_writeJson, failing. destruct (fault env FsWriteJson); simpl; auto.
Qed.

Lemma wp_execa a file args dir Q w :
  (∀ msg, fault env a = Some msg →
     Q (Thrown (Failure msg)) (record (Execa file args dir) w)) →
  (fault env a = None → Q (Done tt) (record (Execa file args dir) w)) →
  wp (execa env a file args dir) Q w.
Proof.
  unfold wp, execa, failing. destruct (fault env a); simpl; auto.
Qed.

Lemma prompt_one_confirm name msg default w :
  prompt_one env (Confirm name msg default) w =
    match confirm_prompt default (operator env name) with
    | Some b => (Done (JBool b), show (Answer name (JBool b)) (show (Prompt name msg) w))
    | None => (Pending, show (Prompt name msg) w)
    end.
Proof.
  unfold prompt_one, ask. simpl. rewrite shows_nil.
  destruct (confirm_prompt default (operator env name)); reflexivity.
Qed.

(** A call of [inquirer.prompt] with a single confirm question. *)
Lemma wp_confirm name msg default Q w :
  (∀ b, confirm_prompt default (operator env name) = Some b →
     Q (Done [(name, JBool b)]) (show (Answer name (JBool b)) (show (Prompt name msg) w))) →
  (confirm_prompt default (operator env name) = None →
     Q Pending (show (Prompt name msg) w)) →
  wp (inquirer_prompt env [Confirm name msg default]) Q w.
Proof.
  intros Hyes Hno. unfold wp, inquirer_prompt, bind. rewrite prompt_one_confirm.
  destruct (confirm_prompt default (operator env name)) as [b|]; simpl; auto.
Qed.

Lemma property_head name v more : property name ((name, v) :: more) = Some v.
Proof. simpl. rewrite bool_decide_true; done. Qed.

Lemma input_prompt_shown default validate rs :
  Forall (fun e => ∃ msg, e = Invalid msg) (input_prompt default validate rs).1.
Proof.
  induction rs as [|[yes|typed|ks] rs IH]; simpl; try constructor.
  destruct (validate (filterInput default typed)) as [|msg]; simpl; [constructor|].
  destruct (input_prompt default validate rs) as [shown a]. simpl in *.
  constructor; eauto.
Qed.

Lemma ask_shown q rs : Forall (fun e => ∃ msg, e = Invalid msg) (ask q rs).1.
Proof.
  destruct q as [name msg default|name msg default validate|name msg choices default];
    simpl; try constructor.
  - pose proof (input_prompt_shown default
      (match validate with Some f => f | None => fun _ => Valid end) rs) as H.
    destruct (input_prompt _ _ rs) as [shown a]. exact H.
  - destruct rs as [|[yes|typed|ks] rs]; constructor.
Qed.

Lemma prompts_app es1 es2 : prompts (es1 ++ es2) = prompts es1 ++ prompts es2.
Proof. apply omap_app. Qed.

Lemma prompts_invalid es :
  Forall (fun e => ∃ msg, e = Invalid msg) es → prompts es = [].
Proof. induction 1 as [|e es [msg ->] _ IH]; simpl; auto. Qed.

Lemma prompt_entry_invalid es :
  Forall (fun e => ∃ msg, e = Invalid msg) es → Forall prompt_entry es.
Proof. intros H. eapply Forall_impl; [exact H|]. intros e [msg ->]. exact I. Qed.

Lemma wp_prompt_one q Q w :
  (∀ es a, Forall prompt_entry es → prompts es = [question_name q] → answered env q a →
     Q (Done a) (shows es w)) →
  (∀ es, Forall prompt_entry es → Q Pending (shows es w)) →
  wp (prompt_one env q) Q w.
Proof.
  intros Hdone Hpending. unfold wp, prompt_one.
  pose proof (ask_shown q (operator env (question_name q))) as Hshown.
  destruct (ask q (operator env (question_name q))) as [shown [a|]] eqn:E; simpl in *.
  - rewrite shows_show, show_shows. apply Hdone.
    + constructor; [exact I|]. apply Forall_app. split.
      * by apply prompt_entry_invalid.
      * by repeat constructor.
    + simpl. rewrite prompts_app, prompts_invalid by done. reflexivity.
    + unfold answered. by rewrite E.
  - rewrite shows_show. apply Hpending.
    constructor; [exact I|]. by apply prompt_entry_invalid.
Qed.

(** A call of [inquirer.prompt]: either every question is answered, in
    order, or a prompt stays open; nothing but the terminal changes. *)
Lemma wp_inquirer_prompt qs Q w :
  (∀ es answers,
     Forall prompt_entry es →
     prompts es = question_name <$> qs →
     Forall2 (fun q kv => kv.1 = question_name q ∧ answered env q kv.2) qs answers →
     Q (Done answers) (shows es w)) →
  (∀ es, Forall prompt_entry es → Q Pending (shows es w)) →
  wp (inquirer_prompt env qs) Q w.
Proof.
  revert Q w. induction qs as [|q qs IH]; intros Q w Hdone Hpending.
  - simpl. apply wp_ret. rewrite <- (shows_nil w). apply Hdone; constructor.
  - cbn [inquirer_prompt]. apply wp_bind, wp_prompt_one.
    + intros es a Hes Hasked Ha. apply wp_bind, IH.
      * intros es' answers Hes' Hasked' Hanswers. apply wp_ret.
        rewrite shows_shows. apply Hdone.
        -- by apply Forall_app.
        -- rewrite prompts_app, Hasked, Hasked'. reflexivity.
        -- constructor; [split; [reflexivity | exact Ha] | exact Hanswers].
      * intros es' Hes'. simpl. rewrite shows_shows. apply Hpending.
        by apply Forall_app.
    + intros es Hes. simpl. apply Hpending, Hes.
Qed.

Lemma wp_object_assign target source Q w :
  (∀ fields, target = JObj fields →
     Q (Done (JObj (set_properties fields source))) w) →
  (∀ e, target = JNull → Q (Thrown e) w) →
  (boxed target → Q (Done target) w) →
  wp (object_assign target source) Q w.
Proof.
  intros Hobj Hnull Hboxed. unfold wp.
  destruct target; simpl; auto; apply Hboxed; exact I.
Qed.

Lemma path_join_file base : path_join base "package.json" = base ++ ["package.json"].
Proof. reflexivity. Qed.

End Facts.

(** Symbolic execution of the script: one rule per construct, the world
    kept as an explicit term. *)
Ltac wp_world :=
  cbn [disk cwd console trace show shows record set_disk set_cwd start app] in *.

Ltac wp_step :=
  lazymatch goal with
  | |- wp (bind _ _) _ _ => apply wp_bind
  | |- wp (try_catch _ _) _ _ => apply wp_try_catch
  | |- wp (ret _) _ _ => apply wp_ret
  | |- wp (perform _) _ _ => apply wp_perform
  | |- wp (console_log _) _ _ => apply wp_perform
  | |- wp (console_error _) _ _ => apply wp_perform
  | |- wp (ora_start _) _ _ => apply wp_perform
  | |- wp (succeed _) _ _ => apply wp_perform
  | |- wp (fail _) _ _ => apply wp_perform
  | |- wp process_cwd _ _ => apply wp_process_cwd
  | |- wp (process_exit _) _ _ => apply wp_process_exit
  | |- wp (throw _) _ _ => apply wp_throw
  | |- wp (fs_existsSync _) _ _ => apply wp_fs_existsSync
  | |- wp (fs_remove _ _) _ _ =>
      apply wp_fs_remove; [intros ? ? | intros ?]
  | |- wp (fs_copy _ _ _) _ _ =>
      apply wp_fs_copy; [intros ? ? | intros ? ? | intros ? ?]
  | |- wp (process_chdir _) _ _ =>
      apply wp_process_chdir; [intros ? | intros ? ?]
  | |- wp (fs_readJson _ _) _ _ =>
      apply wp_fs_readJson; [intros ? ? ? | intros ?]
  | |- wp (fs_writeJson _ _ _) _ _ =>
      apply wp_fs_writeJson; [intros ? ? | intros ?]
  | |- wp (execa _ _ _ _ _) _ _ =>
      apply wp_execa; [intros ? ? | intros ?]
  | |- wp (object_assign _ _) _ _ =>
      apply wp_object_assign; [intros ? ? | intros ? ? | intros ?]
  | |- wp (inquirer_prompt _ [Confirm _ _ _]) _ _ =>
      apply wp_confirm;
        [ let b := fresh "b" in
          intros b ?; rewrite ?property_head; cbn [truthy negb]; destruct b
        | intros ? ]
  | |- wp (inquirer_prompt _ _) _ _ =>
      apply wp_inquirer_prompt; [intros ? ? ? ? ? | intros ? ?]
  | |- wp (if _ then _ else _) _ _ =>
      apply wp_if; intros ?
  end; lazy beta iota delta [carry negb].

Ltac wp_unfold :=
  unfold run, action, check_existing, scaffolding, metadata_setup, update_manifest,
    dependency_installation, git_initialization, summary.

Ltac wp_exec := repeat wp_step; wp_world.

(** Membership in a console or a trace that is an explicit list around
    segments known by a hypothesis. *)
Ltac differ :=
  let E := fresh in
  intros E; first [discriminate E | lazy in E; congruence].

Ltac flatten := rewrite <- ?app_assoc; cbn [app].

Ltac absent :=
  repeat first
    [ assumption
    | apply not_elem_of_nil
    | apply not_elem_of_cons; split; [differ|]
    | apply not_elem_of_app; split ].

Ltac present :=
  solve [ repeat first
    [ apply list_elem_of_here
    | apply list_elem_of_further
    | apply elem_of_app; right ] ].

(** [l] ends with [k], for an explicit [l]. *)
Ltac ends_with :=
  flatten;
  solve [ repeat first
    [ reflexivity
    | apply suffix_cons_r
    | apply suffix_app_r ] ].

(** A membership hypothesis that an explicit list refutes. *)
Ltac refute H :=
  lazymatch type of H with
  | ?x ∈ ?l =>
      let Hn := fresh in
      exfalso; assert (Hn : x ∉ l) by (flatten; absent); exact (Hn H)
  end.

(** A membership hypothesis in an explicit list, case by case. *)
Ltac pick H :=
  repeat first
    [ apply elem_of_nil in H; contradiction
    | apply elem_of_cons in H as [H|H]; [try discriminate H|] ].

(** The run in which the target directory exists and the operator
    declines to overwrite it. *)
Lemma declined_run env initialProjectName d dir :
  let targetDir := path_join dir initialProjectName in
  is_Some (d targetDir) →
  confirm_prompt false (operator env "overwrite") = Some false →
  run env initialProjectName d dir =
    (Exited 0,
     MkWorld d dir
       [ creating initialProjectName;
         Prompt "overwrite" (overwrite_question initialProjectName);
         Answer "overwrite" (JBool false);
         Log (chalk Yellow "Aborting project creation.") ]
       [ExistsSync targetDir]).
Proof.
  intros targetDir Hexists Hno. subst targetDir.
  cut (wp (action env initialProjectName)
         (fun r w' =>
            (r, w') =
              (Exited 0,
               MkWorld d dir
                 [ creating initialProjectName;
                   Prompt "overwrite" (overwrite_question initialProjectName);
                   Answer "overwrite" (JBool false);
                   Log (chalk Yellow "Aborting project creation.") ]
                 [ExistsSync (path_join dir initialProjectName)]))
         (start d dir)).
  { unfold wp, run. by destruct (action env initialProjectName (start d dir)). }
  wp_unfold. do 7 wp_step. wp_world.
  rewrite bool_decide_true by exact Hexists.
  apply wp_bind, wp_confirm; rewrite Hno; [intros b [= <-] | discriminate].
  cbn beta iota. rewrite property_head. cbn [truthy].
  repeat wp_step. reflexivity.
Qed.

(** C5. When the target directory exists and the operator declines the
    overwrite confirmation, by a bare Enter (the default is no) or by an
    explicit no, the tool exits with status 0 after the message
    "Aborting project creation."; the disk is what it was, the only
    external call made is the existence test, so no manifest is written. *)
Theorem declined_overwrite_aborts env initialProjectName d dir rest :
  let targetDir := path_join dir initialProjectName in
  let r := run env initialProjectName d dir in
  is_Some (d targetDir) →
  operator env "overwrite" = Reply None :: rest
    ∨ operator env "overwrite" = Reply (Some false) :: rest →
  r.1 = Exited 0
    ∧ exit_status r.1 = Some 0%Z
    ∧ disk r.2 = d
    ∧ cwd r.2 = dir
    ∧ trace r.2 = [ExistsSync targetDir]
    ∧ (∀ p v, WriteJson p v ∉ trace r.2)
    ∧ console r.2 =
        [ creating initialProjectName;
          Prompt "overwrite" (overwrite_question initialProjectName);
          Answer "overwrite" (JBool false);
          Log (chalk Yellow "Aborting project creation.") ].
Proof.
  intros targetDir r Hexists Hreply. subst r.
  rewrite declined_run; [|exact Hexists|destruct Hreply as [-> | ->]; reflexivity].
  repeat split. intros p v Hin. pick Hin.
Qed.

(** ** The summary *)

Lemma hint_not_prompt es : Forall prompt_entry es → npm_install_hint ∉ es.
Proof.
  intros Hes Hin. rewrite Forall_forall in Hes. apply (Hes _ Hin).
Qed.

(** C10. In a run that completes, the next-step hint "npm install" is
    printed exactly when the operator declined the installation of the
    dependencies; in particular it is not printed when the installation
    was accepted and the install subprocess failed. *)
Theorem install_hint_iff_declined env initialProjectName d dir :
  let r := run env initialProjectName d dir in
  r.1 = Done tt →
  (npm_install_hint ∈ console r.2
     ↔ confirm_prompt true (operator env "installDeps") = Some false)
  ∧ (confirm_prompt true (operator env "installDeps") = Some true →
     is_Some (fault env NpmInstall) →
     npm_install_hint ∉ console r.2).
Proof.
  intros r Hdone.
  cut (∃ b, confirm_prompt true (operator env "installDeps") = Some b
            ∧ if b then npm_install_hint ∉ console r.2
              else npm_install_hint ∈ console r.2).
  { intros ([|] & Hb & Hhint); rewrite Hb.
    - split; [split; [intros Hin; contradiction | discriminate] | intros _ _; exact Hhint].
    - split; [split; [reflexivity | intros _; exact Hhint] | discriminate]. }
  revert Hdone. subst r.
  change (wp (action env initialProjectName)
            (fun r w' =>
               r = Done tt →
               ∃ b, confirm_prompt true (operator env "installDeps") = Some b
                    ∧ if b then npm_install_hint ∉ console w'
                      else npm_install_hint ∈ console w')
            (start d dir)).
  wp_unfold. wp_exec.
  all: intros Hdone; try discriminate Hdone.
  all: match goal with H : Forall prompt_entry _ |- _ => apply hint_not_prompt in H end.
  all: eexists; split; [eassumption|]; cbn beta iota.
  all: unfold npm_install_hint in *.
  all: flatten; first [present | absent].
Qed.

(** ** The child processes *)

(** C6. In every run in which the install subprocess is started and exits
    non-zero, the failure is reported (the spinner fails and the error
    message is printed), the run goes on to [git init], the completion
    summary closes the output and the run ends normally, with status 0. *)
Theorem failed_install_is_tolerated env initialProjectName d dir msg :
  let targetDir := path_join dir initialProjectName in
  let r := run env initialProjectName d dir in
  npm_install targetDir ∈ trace r.2 →
  fault env NpmInstall = Some msg →
  r.1 = Done tt
  ∧ exit_status r.1 = Some 0%Z
  ∧ [npm_install targetDir; git_init targetDir] `suffix_of` trace r.2
  ∧ SpinFail (chalk Red "Dependency installation failed!") ∈ console r.2
  ∧ LogError (chalk Red msg) ∈ console r.2
  ∧ completion_summary initialProjectName `suffix_of` console r.2.
Proof.
  intros targetDir r Hnpm Hfault.
  cut (r.1 = Done tt
       ∧ [npm_install targetDir; git_init targetDir] `suffix_of` trace r.2
       ∧ SpinFail (chalk Red "Dependency installation failed!") ∈ console r.2
       ∧ LogError (chalk Red msg) ∈ console r.2
       ∧ completion_summary initialProjectName `suffix_of` console r.2).
  { intros (-> & ? & ? & ? & ?). repeat split; assumption. }
  revert Hnpm. subst r targetDir.
  change (wp (action env initialProjectName)
            (fun r w' =>
               npm_install (path_join dir initialProjectName) ∈ trace w' →
               r = Done tt
               ∧ [npm_install (path_join dir initialProjectName);
                  git_init (path_join dir initialProjectName)] `suffix_of` trace w'
               ∧ SpinFail (chalk Red "Dependency installation failed!") ∈ console w'
               ∧ LogError (chalk Red msg) ∈ console w'
               ∧ completion_summary initialProjectName `suffix_of` console w')
            (start d dir)).
  unfold npm_install, git_init, completion_summary.
  wp_unfold. wp_exec.
  all: intros Hnpm; try (refute Hnpm).
  all: try congruence.
  all: simplify_eq; cbn [message].
  all: split; [reflexivity|]; split; [ends_with|]; split; [flatten; present|];
         split; [flatten; present | ends_with].
Qed.

(** ** The manifest *)

Lemma strip_prefix_app (pre rel : path) : strip_prefix pre (pre ++ rel) = Some rel.
Proof.
  induction pre as [|a pre IH]; simpl; [reflexivity|].
  rewrite bool_decide_true by reflexivity. exact IH.
Qed.

Lemma disk_write_same target n d : disk_write target n d target = Some n.
Proof. unfold disk_write. rewrite bool_decide_true; reflexivity. Qed.

(** Copied into a directory that was not there, a file of the source tree
    is found in the target. *)
Lemma copied_fresh (d : Disk) src dst rel n n' :
  d (src ++ rel) = Some n →
  disk_copy src dst d (dst ++ rel) = Some n' →
  n' = n.
Proof.
  unfold disk_copy. rewrite strip_prefix_app. intros ->. congruence.
Qed.

(** The same after the target was removed first: either the removal took
    the source file with it and the target has no such file, or it is the
    file of the source tree. *)
Lemma copied_over (d : Disk) src dst rel n n' :
  d (src ++ rel) = Some n →
  disk_copy src dst (disk_remove dst d) (dst ++ rel) = Some n' →
  n' = n.
Proof.
  unfold disk_copy, disk_remove. rewrite !strip_prefix_app.
  intros Hsrc. destruct (strip_prefix dst (src ++ rel)); [discriminate|].
  rewrite Hsrc. congruence.
Qed.

(** A run that completes has written, in the target directory, the
    manifest of the boilerplate with the answers of the metadata prompt
    set on it. *)
Lemma completed_run_manifest env initialProjectName d dir m0 :
  let targetDir := path_join dir initialProjectName in
  let r := run env initialProjectName d dir in
  r.1 = Done tt →
  d (path_join (__dirname env) "boilerplate" ++ ["package.json"])
    = Some (File (Json (JObj m0))) →
  ∃ answers,
    answers_to env (npmInitQuestions targetDir) answers
    ∧ disk r.2 (targetDir ++ ["package.json"])
      = Some (File (Json (JObj (set_properties m0 answers)))).
Proof.
  intros targetDir r Hdone Hm0. revert Hdone. subst r targetDir.
  change (wp (action env initialProjectName)
            (fun r w' =>
               r = Done tt →
               ∃ answers,
                 answers_to env (npmInitQuestions (path_join dir initialProjectName)) answers
                 ∧ disk w' (path_join dir initialProjectName ++ ["package.json"])
                   = Some (File (Json (JObj (set_properties m0 answers)))))
            (start d dir)).
  wp_unfold. wp_exec.
  all: intros Hdone; try discriminate Hdone.
  all: rewrite path_join_file in *.
  all: match goal with
       | H : disk_copy _ _ (disk_remove _ _) (_ ++ _) = Some _ |- _ =>
           apply (copied_over _ _ _ _ _ _ Hm0) in H
       | H : disk_copy _ _ _ (_ ++ _) = Some _ |- _ =>
           apply (copied_fresh _ _ _ _ _ _ Hm0) in H
       end.
  all: simplify_eq; try contradiction.
  all: eexists; split; [eassumption|]; apply disk_write_same.
Qed.

(** Whatever a run hands to [fs.writeJson] is what it read with the
    answers of the metadata prompt set on it when that is an object, and
    no object otherwise. *)
Lemma written_manifest env initialProjectName d dir p v :
  let targetDir := path_join dir initialProjectName in
  WriteJson p v ∈ trace (run env initialProjectName d dir).2 →
  p = targetDir ++ ["package.json"]
  ∧ ∃ answers,
      answers_to env (npmInitQuestions targetDir) answers
      ∧ ∀ m, v = JObj m → ∃ fields, m = set_properties fields answers.
Proof.
  intros targetDir. subst targetDir.
  change (wp (action env initialProjectName)
            (fun r w' =>
               WriteJson p v ∈ trace w' →
               p = path_join dir initialProjectName ++ ["package.json"]
               ∧ ∃ answers,
                   answers_to env (npmInitQuestions (path_join dir initialProjectName)) answers
                   ∧ ∀ m, v = JObj m → ∃ fields, m = set_properties fields answers)
            (start d dir)).
  wp_unfold. wp_exec.
  all: intros Hin; pick Hin.
  all: rewrite path_join_file in *; simplify_eq.
  all: split; [reflexivity|]; eexists; split; [eassumption|].
  all: intros m Hm; simplify_eq; try contradiction; eauto.
Qed.

(** *** The merge *)

Lemma set_properties_other (m : gmap string json) source k :
  k ∉ source.*1 → set_properties m source !! k = m !! k.
Proof.
  revert m. induction source as [|[k' a] source IH]; intros m Hk; [reflexivity|].
  apply not_elem_of_cons in Hk as [Hne Hk]. simpl in Hne.
  change (set_properties (<[k' := a]> m) source !! k = m !! k).
  rewrite IH by exact Hk. apply lookup_insert_ne. congruence.
Qed.

Lemma set_properties_set (m : gmap string json) source k a :
  NoDup source.*1 → (k, a) ∈ source → set_properties m source !! k = Some a.
Proof.
  revert m. induction source as [|[k' a'] source IH]; intros m Hnodup Hin.
  - by apply elem_of_nil in Hin.
  - apply NoDup_cons in Hnodup as [Hfresh Hnodup].
    change (set_properties (<[k' := a']> m) source !! k = Some a).
    apply elem_of_cons in Hin as [[= -> ->]|Hin].
    + rewrite set_properties_other by exact Hfresh. apply lookup_insert_eq.
    + apply IH; assumption.
Qed.

(** On distinct keys, setting the properties one by one is the union that
    prefers the source. *)
Lemma set_properties_union (m : gmap string json) source :
  NoDup source.*1 → set_properties m source = list_to_map source ∪ m.
Proof.
  intros Hnodup. apply map_eq. intros k.
  destruct ((list_to_map source : gmap string json) !! k) as [a|] eqn:E.
  - rewrite lookup_union_l' by (rewrite E; eauto). rewrite E.
    apply set_properties_set; [exact Hnodup|].
    by apply elem_of_list_to_map_2.
  - rewrite lookup_union_r by exact E.
    apply set_properties_other. by apply not_elem_of_list_to_map_2.
Qed.

Lemma answers_keys env qs answers :
  answers_to env qs answers → answers.*1 = question_name <$> qs.
Proof.
  induction 1 as [|q [k a] qs answers [Hk _] _ IH]; [reflexivity|].
  rewrite !fmap_cons. simpl in Hk. by rewrite Hk, IH.
Qed.

Lemma answers_lookup env qs answers q :
  answers_to env qs answers → q ∈ qs →
  ∃ a, (question_name q, a) ∈ answers ∧ answered env q a.
Proof.
  induction 1 as [|q' [k a] qs answers [Hk Ha] _ IH]; intros Hq.
  - by apply elem_of_nil in Hq.
  - simpl in *. apply elem_of_cons in Hq as [->|Hq].
    + exists a. split; [subst k; apply list_elem_of_here | exact Ha].
    + destruct (IH Hq) as (a' & Hin & Ha'). exists a'.
      split; [by apply list_elem_of_further | exact Ha'].
Qed.

Lemma npmInitQuestions_names targetDir :
  question_name <$> npmInitQuestions targetDir = collected.
Proof. reflexivity. Qed.

Lemma collected_NoDup : NoDup collected.
Proof. apply (bool_decide_unpack _). vm_compute. exact I. Qed.

Lemma metadata_answers_NoDup env targetDir answers :
  answers_to env (npmInitQuestions targetDir) answers → NoDup answers.*1.
Proof.
  intros H. rewrite (answers_keys _ _ _ H), npmInitQuestions_names.
  exact collected_NoDup.
Qed.

Lemma answered_input_first env name msg default validate typed rest a :
  operator env name = Line typed :: rest →
  match validate with
  | Some f => f (filterInput default typed) = Valid
  | None => True
  end →
  answered env (Input name msg default validate) a →
  a = JStr (filterInput default typed).
Proof.
  unfold answered, ask. simpl. intros -> Hvalid. simpl.
  destruct validate as [f|]; [rewrite Hvalid|]; simpl; congruence.
Qed.

Lemma answered_choice_keys env name msg choices default ks rest a :
  operator env name = Keys ks :: rest →
  answered env (Choice name msg choices default) a →
  ∃ c, list_prompt choices default ks = Some c ∧ a = JStr c.
Proof.
  unfold answered, ask. simpl. intros ->. simpl.
  destruct (list_prompt choices default ks) as [c|]; simpl; [|discriminate].
  intros [= <-]. eauto.
Qed.

(** C1. After a run that completes, on a boilerplate whose manifest is a
    JSON object, the manifest written in the target directory has each of
    the six fields name, description, version, author, license and main
    equal to the answer the prompt of that name settled on from what the
    operator submitted.  For a text prompt whose first line passes the
    validator that is the line itself, or the default when the line is
    empty; for the license it is the choice the arrow keys lead to from
    the default. *)
Theorem manifest_fields_are_the_answers env initialProjectName d dir m0 :
  let targetDir := path_join dir initialProjectName in
  let r := run env initialProjectName d dir in
  r.1 = Done tt →
  d (path_join (__dirname env) "boilerplate" ++ ["package.json"])
    = Some (File (Json (JObj m0))) →
  ∃ m,
    disk r.2 (targetDir ++ ["package.json"]) = Some (File (Json (JObj m)))
    ∧ question_name <$> npmInitQuestions targetDir
      = ["name"; "description"; "version"; "author"; "license"; "main"]
    ∧ (∀ q, q ∈ npmInitQuestions targetDir →
         ∃ a, answered env q a ∧ m !! question_name q = Some a)
    ∧ (∀ k msg default validate typed rest,
         Input k msg default validate ∈ npmInitQuestions targetDir →
         operator env k = Line typed :: rest →
         match validate with
         | Some f => f (if bool_decide (typed = "") then default else typed) = Valid
         | None => True
         end →
         m !! k = Some (JStr (if bool_decide (typed = "") then default else typed)))
    ∧ (∀ ks rest,
         operator env "license" = Keys ks :: rest →
         ∃ c, list_prompt ["ISC"; "MIT"; "UNLICENSED"] "ISC" ks = Some c
              ∧ m !! "license" = Some (JStr c)).
Proof.
  intros targetDir r Hdone Hm0.
  destruct (completed_run_manifest env initialProjectName d dir m0 Hdone Hm0)
    as (answers & Hanswers & Hdisk).
  pose proof (metadata_answers_NoDup _ _ _ Hanswers) as Hnodup.
  exists (set_properties m0 answers). split; [exact Hdisk|]. split; [reflexivity|].
  split; [|split].
  - intros q Hq. destruct (answers_lookup _ _ _ _ Hanswers Hq) as (a & Hin & Ha).
    exists a. split; [exact Ha|]. by apply set_properties_set.
  - intros k msg default validate typed rest Hq Hline Hvalid.
    destruct (answers_lookup _ _ _ _ Hanswers Hq) as (a & Hin & Ha).
    rewrite (answered_input_first _ _ _ _ _ _ _ _ Hline Hvalid Ha) in Hin.
    by apply set_properties_set.
  - intros ks rest Hkeys.
    destruct (answers_lookup _ _ _
                (Choice "license" "license:" license_choices "ISC") Hanswers)
      as (a & Hin & Ha).
    { unfold npmInitQuestions. do 4 apply list_elem_of_further. apply list_elem_of_here. }
    destruct (answered_choice_keys _ _ _ _ _ _ _ _ Hkeys Ha) as (c & Hc & ->).
    exists c. split; [exact Hc|]. by apply set_properties_set.
Qed.

(** C2. The manifest written by a run that completes is the shallow merge
    of the answers object over the manifest of the boilerplate: it is the
    union of the two that prefers the answers, so each collected field
    holds its answer whatever the boilerplate had under that key, and
    every field under another key is the boilerplate's, unchanged. *)
Theorem manifest_merge_is_shallow env initialProjectName d dir m0 :
  let targetDir := path_join dir initialProjectName in
  let r := run env initialProjectName d dir in
  r.1 = Done tt →
  d (path_join (__dirname env) "boilerplate" ++ ["package.json"])
    = Some (File (Json (JObj m0))) →
  ∃ m answers,
    disk r.2 (targetDir ++ ["package.json"]) = Some (File (Json (JObj m)))
    ∧ answers_to env (npmInitQuestions targetDir) answers
    ∧ answers.*1 = ["name"; "description"; "version"; "author"; "license"; "main"]
    ∧ m = list_to_map answers ∪ m0
    ∧ (∀ k a, (k, a) ∈ answers → m !! k = Some a)
    ∧ (∀ k, k ∉ ["name"; "description"; "version"; "author"; "license"; "main"] →
         m !! k = m0 !! k).
Proof.
  intros targetDir r Hdone Hm0.
  destruct (completed_run_manifest env initialProjectName d dir m0 Hdone Hm0)
    as (answers & Hanswers & Hdisk).
  pose proof (metadata_answers_NoDup _ _ _ Hanswers) as Hnodup.
  pose proof (answers_keys _ _ _ Hanswers) as Hkeys.
  rewrite npmInitQuestions_names in Hkeys.
  exists (set_properties m0 answers), answers.
  split; [exact Hdisk|]. split; [exact Hanswers|]. split; [exact Hkeys|].
  split; [by apply set_properties_union|]. split.
  - intros k a Hin. by apply set_properties_set.
  - intros k Hk. apply set_properties_other. by rewrite Hkeys.
Qed.

(** *** The license *)

Lemma move_lt n cursor k : cursor < n → move n cursor k < n.
Proof.
  intros Hlt. destruct k; simpl.
  - destruct cursor; lia.
  - case_bool_decide; lia.
Qed.

Lemma position_lt x l i : position x l = Some i → i < length l.
Proof.
  revert i. induction l as [|y l IH]; intros i; simpl; [discriminate|].
  case_bool_decide.
  - intros [= <-]. lia.
  - destruct (position x l) as [j|]; simpl; [|discriminate].
    intros [= <-]. specialize (IH j eq_refl). lia.
Qed.

(** The cursor of a list prompt never leaves the list: whatever keys are
    pressed, the prompt settles on one of its choices. *)
Lemma list_prompt_total choices default ks :
  choices ≠ [] → ∃ c, c ∈ choices ∧ list_prompt choices default ks = Some c.
Proof.
  intros Hne. unfold list_prompt.
  set (first := match position default choices with Some i => i | None => 0 end).
  assert (Hfirst : first < length choices).
  { subst first. destruct (position default choices) as [i|] eqn:E.
    - by eapply position_lt.
    - destruct choices; [done | simpl; lia]. }
  clearbody first. revert first Hfirst.
  induction ks as [|k ks IH]; intros cursor Hcursor; simpl.
  - destruct (lookup_lt_is_Some_2 choices cursor Hcursor) as [c Hc].
    exists c. split; [by eapply list_elem_of_lookup_2 | exact Hc].
  - apply IH. by apply move_lt.
Qed.

Lemma answered_choice env name msg choices default a :
  answered env (Choice name msg choices default) a →
  ∃ c, c ∈ choices ∧ a = JStr c.
Proof.
  unfold answered, ask. simpl.
  destruct (operator env name) as [|[yes|typed|ks] rest]; simpl; try discriminate.
  unfold list_prompt.
  destruct (choices !! _) as [c|] eqn:E; simpl; [|discriminate].
  intros [= <-]. exists c. split; [|reflexivity].
  by eapply list_elem_of_lookup_2.
Qed.

(** C3. Whatever object a run hands to [fs.writeJson] has, as its license
    field, one of the choices of the list prompt, ISC, MIT or UNLICENSED;
    the default of that prompt is the first of them, which is what a bare
    Enter selects, and whatever arrow keys come before the Enter the
    prompt settles on one of the three. *)
Theorem written_license_is_a_choice env initialProjectName d dir :
  let targetDir := path_join dir initialProjectName in
  let r := run env initialProjectName d dir in
  (∀ p v m, WriteJson p v ∈ trace r.2 → v = JObj m →
     ∃ c, c ∈ ["ISC"; "MIT"; "UNLICENSED"] ∧ m !! "license" = Some (JStr c))
  ∧ Choice "license" "license:" ["ISC"; "MIT"; "UNLICENSED"] "ISC"
      ∈ npmInitQuestions targetDir
  ∧ head license_choices = Some "ISC"
  ∧ list_prompt license_choices "ISC" [] = head license_choices
  ∧ (∀ ks, ∃ c, c ∈ ["ISC"; "MIT"; "UNLICENSED"]
                ∧ list_prompt license_choices "ISC" ks = Some c).
Proof.
  intros targetDir r. split; [|split; [|split; [|split]]]; try reflexivity; cycle 2.
  { intros ks. by apply list_prompt_total. }
  - intros p v m Hin Hv.
    destruct (written_manifest env initialProjectName d dir p v Hin)
      as (_ & answers & Hanswers & Hobj).
    destruct (Hobj m Hv) as [fields ->].
    destruct (answers_lookup _ _ _
                (Choice "license" "license:" license_choices "ISC") Hanswers)
      as (a & Hin' & Ha).
    { unfold npmInitQuestions. do 4 apply list_elem_of_further. apply list_elem_of_here. }
    destruct (answered_choice _ _ _ _ _ _ Ha) as (c & Hc & ->).
    exists c. split; [exact Hc|].
    apply set_properties_set; [|exact Hin'].
    eapply metadata_answers_NoDup, Hanswers.
  - unfold npmInitQuestions. do 4 apply list_elem_of_further. apply list_elem_of_here.
Qed.

(** ** Exit statuses *)

Lemma disk_remove_None (d : Disk) target p : d p = None → disk_remove target d p = None.
Proof. unfold disk_remove. intros ->. by destruct (strip_prefix target p). Qed.

(** How a run ends once one of its fallible steps has been taken. *)
Lemma exit_status_after env initialProjectName d dir :
  let targetDir := path_join dir initialProjectName in
  let boilerplateDir := path_join (__dirname env) "boilerplate" in
  let r := run env initialProjectName d dir in
  (Remove targetDir ∈ trace r.2 → is_Some (fault env FsRemove) →
     r.1 = Exited 1)
  ∧ (Copy boilerplateDir targetDir ∈ trace r.2 →
     is_Some (fault env FsCopy) ∨ d boilerplateDir = None →
     r.1 = Exited 1)
  ∧ (npm_install targetDir ∈ trace r.2 ∨ git_init targetDir ∈ trace r.2 →
     r.1 = Done tt).
Proof.
  intros targetDir boilerplateDir r. subst r targetDir boilerplateDir.
  change (wp (action env initialProjectName)
            (fun r w' =>
               (Remove (path_join dir initialProjectName) ∈ trace w' →
                is_Some (fault env FsRemove) → r = Exited 1)
               ∧ (Copy (path_join (__dirname env) "boilerplate")
                    (path_join dir initialProjectName) ∈ trace w' →
                  is_Some (fault env FsCopy)
                    ∨ d (path_join (__dirname env) "boilerplate") = None →
                  r = Exited 1)
               ∧ (npm_install (path_join dir initialProjectName) ∈ trace w'
                    ∨ git_init (path_join dir initialProjectName) ∈ trace w' →
                  r = Done tt))
            (start d dir)).
  unfold npm_install, git_init.
  wp_unfold. wp_exec.
  all: split; [|split].
  all: try (intros Hin [msg' Hmsg]; pick Hin; first [reflexivity | congruence]).
  all: try (intros [Hin|Hin]; pick Hin; reflexivity).
  all: intros Hin [[msg' Hmsg]|Hmissing]; pick Hin; first [reflexivity | congruence | idtac].
  all: try match goal with
       | H : is_Some (disk_remove _ _ _) |- _ =>
           rewrite (disk_remove_None _ _ _ Hmissing) in H
       | H : is_Some (_ _) |- _ => rewrite Hmissing in H
       end.
  all: match goal with H : is_Some None |- _ => by destruct H end.
Qed.

Lemma bind_assoc {A B C} (c : M A) (f : A → M B) (k : B → M C) w :
  bind (bind c f) k w = bind c (fun a => bind (f a) k) w.
Proof. unfold bind. by destruct (c w) as [[a|e|code|] w']. Qed.

Lemma bind_ext {A B} (c : M A) (k k' : A → M B) w :
  (∀ a w', k a w' = k' a w') → bind c k w = bind c k' w.
Proof. intros H. unfold bind. destruct (c w) as [[a|e|code|] w']; auto. Qed.

Lemma action_split env initialProjectName w :
  action env initialProjectName w =
    bind (front env initialProjectName)
      (fun x => finish env initialProjectName x.1 x.2) w.
Proof.
  unfold action, front, finish.
  repeat (rewrite bind_assoc; apply bind_ext; intros ? ?).
  reflexivity.
Qed.

(** Once the operator has answered, the rest of the script runs to its
    end. *)
Lemma finish_done env initialProjectName targetDir installDeps w :
  (finish env initialProjectName targetDir installDeps w).1 = Done tt.
Proof.
  change (wp (finish env initialProjectName targetDir installDeps)
            (fun r _ => r = Done tt) w).
  unfold finish. wp_unfold. wp_exec. all: reflexivity.
Qed.

Lemma subprocesses_irrelevant env npm git initialProjectName w :
  exit_status (action (with_subprocesses npm git env) initialProjectName w).1
  = exit_status (action env initialProjectName w).1.
Proof.
  rewrite !action_split.
  change (front (with_subprocesses npm git env) initialProjectName)
    with (front env initialProjectName).
  unfold bind.
  destruct (front env initialProjectName w) as [[x|e|code|] w']; try reflexivity.
  by rewrite !finish_done.
Qed.

(** C4. The exit status is 0 when the run completes and when the operator
    declines the overwrite; it is 1 when the removal of the existing
    target directory is attempted and fails, and when the copy of the
    boilerplate is attempted and fails (by a failure of the copy itself or
    for want of the source); once a child process has been started the
    status is 0, and making the install or the git-init process fail or
    succeed never changes the status of a run. *)
Theorem exit_statuses env initialProjectName d dir :
  let targetDir := path_join dir initialProjectName in
  let boilerplateDir := path_join (__dirname env) "boilerplate" in
  let r := run env initialProjectName d dir in
  (r.1 = Done tt → exit_status r.1 = Some 0%Z)
  ∧ (is_Some (d targetDir) →
     confirm_prompt false (operator env "overwrite") = Some false →
     exit_status r.1 = Some 0%Z)
  ∧ (Remove targetDir ∈ trace r.2 → is_Some (fault env FsRemove) →
     exit_status r.1 = Some 1%Z)
  ∧ (Copy boilerplateDir targetDir ∈ trace r.2 →
     is_Some (fault env FsCopy) ∨ d boilerplateDir = None →
     exit_status r.1 = Some 1%Z)
  ∧ (npm_install targetDir ∈ trace r.2 ∨ git_init targetDir ∈ trace r.2 →
     exit_status r.1 = Some 0%Z)
  ∧ (∀ npm git,
       exit_status (run (with_subprocesses npm git env) initialProjectName d dir).1
       = exit_status r.1).
Proof.
  intros targetDir boilerplateDir r.
  destruct (exit_status_after env initialProjectName d dir)
    as (Hremove & Hcopy & Hchild).
  fold targetDir boilerplateDir r in Hremove, Hcopy, Hchild.
  split; [|split; [|split; [|split; [|split]]]].
  - by intros ->.
  - intros Hexists Hno. subst r. by rewrite declined_run.
  - intros Hin Hfault. by rewrite (Hremove Hin Hfault).
  - intros Hin Hfail. by rewrite (Hcopy Hin Hfail).
  - intros Hin. by rewrite (Hchild Hin).
  - intros npm git. apply subprocesses_irrelevant.
Qed.

(** ** The metadata prompt *)

Lemma input_prompt_valid default validate rs shown s :
  input_prompt default validate rs = (shown, Some s) → validate s = Valid.
Proof.
  revert shown. induction rs as [|[yes|typed|ks] rs IH]; intros shown; simpl;
    try discriminate.
  destruct (validate (filterInput default typed)) as [|msg] eqn:E.
  - by intros [= _ <-].
  - destruct (input_prompt default validate rs) as [shown' a].
    intros [= _ ->]. by eapply IH.
Qed.

Lemma answered_input env name msg default validate a :
  answered env (Input name msg default validate) a →
  ∃ s, a = JStr s ∧ match validate with Some f => f s = Valid | None => True end.
Proof.
  unfold answered, ask. simpl.
  destruct (input_prompt default _ (operator env name)) as [shown [s|]] eqn:E;
    simpl; [|discriminate].
  intros [= <-]. exists s. split; [reflexivity|].
  destruct validate as [f|]; [|exact I]. by eapply input_prompt_valid.
Qed.

Lemma answered_input_plain env name msg default typed rest a :
  operator env name = Line typed :: rest →
  answered env (Input name msg default None) a →
  a = JStr (filterInput default typed).
Proof. unfold answered, ask. simpl. intros ->. simpl. congruence. Qed.

Lemma validate_name_nonempty s : validate_name s = Valid ↔ s ≠ "".
Proof.
  unfold validate_name. destruct s as [|c s].
  - rewrite bool_decide_false by (simpl; lia). split; [discriminate|congruence].
  - rewrite bool_decide_true by (simpl; lia). split; [discriminate|reflexivity].
Qed.

Lemma prompt_one_settled env q a w :
  ask q (operator env (question_name q)) = ([], Some a) →
  prompt_one env q w =
    (Done a, show (Answer (question_name q) a)
               (show (Prompt (question_name q) (question_message q)) w)).
Proof. unfold prompt_one. intros ->. by rewrite shows_nil. Qed.

Lemma accepting_defaults env targetDir w :
  path_basename targetDir ≠ "" →
  (∀ k, k ∈ ["name"; "description"; "version"; "author"; "main"] →
     ∃ rest, operator env k = Line "" :: rest) →
  (∃ rest, operator env "license" = Keys [] :: rest) →
  (metadata_setup env targetDir w).1 = Done (default_answers targetDir).
Proof.
  intros Hbase Hlines [rest5 E5].
  destruct (Hlines "name") as [rest1 E1]; [by repeat constructor|].
  destruct (Hlines "description") as [rest2 E2]; [by repeat constructor|].
  destruct (Hlines "version") as [rest3 E3]; [by repeat constructor|].
  destruct (Hlines "author") as [rest4 E4]; [by repeat constructor|].
  destruct (Hlines "main") as [rest6 E6]; [by repeat constructor|].
  apply validate_name_nonempty in Hbase.
  unfold metadata_setup, npmInitQuestions, inquirer_prompt, bind.
  cbn [console_log perform].
  repeat (erewrite prompt_one_settled;
          [|unfold ask; cbn [question_name];
            rewrite ?E1, ?E2, ?E3, ?E4, ?E5, ?E6; cbn [input_prompt];
            unfold filterInput; rewrite ?bool_decide_true by reflexivity;
            rewrite ?Hbase; reflexivity]).
  reflexivity.
Qed.

(** C7. The metadata prompt asks its six questions one after the other,
    in the order name, description, version, author, license, main, and
    its answers object has them in that order.  An operator who answers
    each of them with a bare Enter gets the defaults: the base name of the
    target directory, the description text, "1.0.0", the empty author,
    "ISC" (the first choice of the list) and "index.js".  The validator of
    the name rejects the empty string, so the name settled on is never
    empty, and a bare Enter is refused when the base name is empty. *)
Theorem metadata_prompt_defaults env targetDir w :
  let r := metadata_setup env targetDir w in
  (∀ answers, r.1 = Done answers →
     answers.*1 = ["name"; "description"; "version"; "author"; "license"; "main"]
     ∧ (∃ es, console r.2 = console w ++ es
              ∧ prompts es
                = ["name"; "description"; "version"; "author"; "license"; "main"])
     ∧ ∃ name, property "name" answers = Some (JStr name) ∧ name ≠ "")
  ∧ (path_basename targetDir ≠ "" →
     (∀ k, k ∈ ["name"; "description"; "version"; "author"; "main"] →
        ∃ rest, operator env k = Line "" :: rest) →
     (∃ rest, operator env "license" = Keys [] :: rest) →
     r.1 = Done
       [ ("name", JStr (path_basename targetDir));
         ("description", JStr "Boilerplate for JavaScript backend application");
         ("version", JStr "1.0.0");
         ("author", JStr "");
         ("license", JStr "ISC");
         ("main", JStr "index.js") ])
  ∧ head license_choices = Some "ISC"
  ∧ validate_name "" = Rejected "Package name cannot be empty."
  ∧ (path_basename targetDir = "" →
     ∀ rest, ∃ more,
       (ask (Input "name" "package name:" (path_basename targetDir) (Some validate_name))
            (Line "" :: rest)).1
       = Invalid "Package name cannot be empty." :: more).
Proof.
  intros r. split; [|split; [|split; [|split]]].
  - subst r.
    change (wp (metadata_setup env targetDir)
              (fun r w' =>
                 ∀ answers, r = Done answers →
                   answers.*1 = collected
                   ∧ (∃ es, console w' = console w ++ es ∧ prompts es = collected)
                   ∧ ∃ name, property "name" answers = Some (JStr name) ∧ name ≠ "")
              w).
    wp_unfold. wp_exec; intros answers' Hdone; [|discriminate].
    injection Hdone as <-.
    match goal with H : Forall2 _ _ _ |- _ => rename H into Hanswers end.
    split; [exact (answers_keys env _ _ Hanswers)|]. split.
    + eexists. rewrite <- !app_assoc. split; [reflexivity|]. simpl. assumption.
    + unfold npmInitQuestions in Hanswers.
      apply Forall2_cons_inv_l in Hanswers as ([k a] & more & [Hk Ha] & _ & ->).
      simpl in Hk, Ha. subst k.
      apply answered_input in Ha as (s & -> & Hvalid).
      exists s. split; [apply property_head|]. by apply validate_name_nonempty.
  - apply accepting_defaults.
  - reflexivity.
  - reflexivity.
  - intros Hbase rest. simpl. unfold filterInput.
    rewrite bool_decide_true by reflexivity. rewrite Hbase. simpl.
    destruct (input_prompt "" validate_name rest) as [shown a]. simpl. eauto.
Qed.

(** *** The prompts without a validator *)

(** C9. Of the questions of the metadata prompt only the package name
    has a validator, which rejects the empty string.  The description,
    version, author and entry-point prompts accept whatever line is
    submitted, at once and without validation; in a run that completes, a
    non-empty line is written verbatim into the manifest, and an empty
    line is written as the default of its prompt (which is the empty
    string for the author only). *)
Theorem unvalidated_inputs_are_written env initialProjectName d dir m0 :
  let targetDir := path_join dir initialProjectName in
  let r := run env initialProjectName d dir in
  (∀ q, q ∈ npmInitQuestions targetDir →
     (∃ k msg default f, q = Input k msg default (Some f)) ↔ question_name q = "name")
  ∧ validate_name "" = Rejected "Package name cannot be empty."
  ∧ (∀ k, k ∈ ["description"; "version"; "author"; "main"] →
       ∃ msg default, Input k msg default None ∈ npmInitQuestions targetDir)
  ∧ (∀ k msg default typed rest,
       ask (Input k msg default None) (Line typed :: rest)
       = ([], Some (JStr (if bool_decide (typed = "") then default else typed))))
  ∧ (r.1 = Done tt →
     d (path_join (__dirname env) "boilerplate" ++ ["package.json"])
       = Some (File (Json (JObj m0))) →
     ∃ m,
       disk r.2 (targetDir ++ ["package.json"]) = Some (File (Json (JObj m)))
       ∧ ∀ k msg default typed rest,
           Input k msg default None ∈ npmInitQuestions targetDir →
           operator env k = Line typed :: rest →
           m !! k = Some (JStr (if bool_decide (typed = "") then default else typed))
           ∧ (typed ≠ "" → m !! k = Some (JStr typed))).
Proof.
  intros targetDir r. split; [|split; [|split; [|split]]].
  - intros q Hq. unfold npmInitQuestions in Hq.
    repeat (apply elem_of_cons in Hq as [->|Hq]); try by apply elem_of_nil in Hq.
    all: split; [intros (k & msg & default & f & E); by inversion E | try discriminate].
    intros _. by eexists _, _, _, _.
  - reflexivity.
  - intros k Hk. unfold npmInitQuestions.
    repeat (apply elem_of_cons in Hk as [->|Hk]); try by apply elem_of_nil in Hk.
    all: eexists _, _.
    + do 1 apply list_elem_of_further. apply list_elem_of_here.
    + do 2 apply list_elem_of_further. apply list_elem_of_here.
    + do 3 apply list_elem_of_further. apply list_elem_of_here.
    + do 5 apply list_elem_of_further. apply list_elem_of_here.
  - reflexivity.
  - intros Hdone Hm0.
    destruct (completed_run_manifest env initialProjectName d dir m0 Hdone Hm0)
      as (answers & Hanswers & Hdisk).
    exists (set_properties m0 answers). split; [exact Hdisk|].
    intros k msg default typed rest Hq Hline.
    destruct (answers_lookup _ _ _ _ Hanswers Hq) as (a & Hin & Ha).
    simpl in Hin.
    rewrite (answered_input_plain _ _ _ _ _ _ _ Hline Ha) in Hin.
    assert (Hset : set_properties m0 answers !! k = Some (JStr (filterInput default typed))).
    { apply set_properties_set; [|exact Hin].
      eapply metadata_answers_NoDup, Hanswers. }
    split; [exact Hset|].
    intros Hne. rewrite Hset. unfold filterInput. by rewrite bool_decide_false.
Qed.

(** C9 as first stated, with every line written verbatim, fails on the
    empty line: the operator submits it to the description prompt, and
    the manifest gets the default description. *)
Lemma empty_description_is_not_written :
  let r := run Demo.env "demo" Demo.installed Demo.home in
  operator Demo.env "description" = [Line ""]
  ∧ r.1 = Done tt
  ∧ ∃ m,
      disk r.2 ["home"; "dev"; "demo"; "package.json"] = Some (File (Json (JObj m)))
      ∧ m !! "description" = Some (JStr "Boilerplate for JavaScript backend application")
      ∧ m !! "description" ≠ Some (JStr "").
Proof.
  split; [reflexivity|]. split; [vm_compute; reflexivity|].
  exists (set_properties Demo.manifest (default_answers ["home"; "dev"; "demo"])).
  split; [vm_compute; reflexivity|]. split; [vm_compute; reflexivity|].
  vm_compute. discriminate.
Qed.

(** ** Failures that nobody catches *)

(** C8 fails on the code.  A failure of [fs.writeJson] (here for want of
    space) or of [fs.readJson] (here for want of the manifest in the
    boilerplate) leaves the action as a thrown error: the run has no exit
    status of the script's making and the console, which ends with the
    last answer, shows no failure.  A failure of the copy, one step
    earlier, is caught, reported and turned into exit status 1. *)
Theorem manifest_failures_escape :
  let written := run Demo.disk_full "demo" Demo.installed Demo.home in
  let read := run Demo.env "demo" Demo.bare Demo.home in
  let copied := run Demo.copy_fails "demo" Demo.installed Demo.home in
  (written.1 = Thrown (Failure "ENOSPC: no space left on device, write")
   ∧ exit_status written.1 = None
   ∧ forallb (fun e => negb (reports_failure e)) (console written.2) = true
   ∧ last (console written.2) = Some (Answer "main" (JStr "index.js")))
  ∧ (read.1 = Thrown (NoEntry "open" ["home"; "dev"; "demo"; "package.json"])
     ∧ exit_status read.1 = None
     ∧ forallb (fun e => negb (reports_failure e)) (console read.2) = true
     ∧ last (console read.2) = Some (Answer "main" (JStr "index.js")))
  ∧ (copied.1 = Exited 1
     ∧ SpinFail (chalk Red "Error copying boilerplate!") ∈ console copied.2
     ∧ LogError (chalk Red "EACCES: permission denied, mkdir") ∈ console copied.2).
Proof.
  repeat split; try (vm_compute; reflexivity).
  all: vm_compute; present.
Qed.

(** ** The theorems at work on the sample installation *)

Lemma manifest_fields_are_the_answers_witness :
  let r := run Demo.env "demo" Demo.installed Demo.home in
  r.1 = Done tt
  ∧ ∃ m,
      disk r.2 (path_join Demo.home "demo" ++ ["package.json"])
        = Some (File (Json (JObj m)))
      ∧ ∀ q, q ∈ npmInitQuestions (path_join Demo.home "demo") →
          ∃ a, answered Demo.env q a ∧ m !! question_name q = Some a.
Proof.
  assert (Hdone : (run Demo.env "demo" Demo.installed Demo.home).1 = Done tt)
    by (vm_compute; reflexivity).
  split; [exact Hdone|].
  destruct (manifest_fields_are_the_answers Demo.env "demo" Demo.installed Demo.home
              Demo.manifest Hdone) as (m & Hdisk & _ & Hfields & _).
  - vm_compute; reflexivity.
  - exists m. split; [exact Hdisk | exact Hfields].
Defined.

Lemma manifest_merge_is_shallow_witness :
  let r := run Demo.careful_env "demo" Demo.occupied Demo.home in
  r.1 = Done tt
  ∧ ∃ m,
      disk r.2 (path_join Demo.home "demo" ++ ["package.json"])
        = Some (File (Json (JObj m)))
      ∧ m !! "type" = Some (JStr "module")
      ∧ m !! "scripts" = Demo.manifest !! "scripts".
Proof.
  assert (Hdone : (run Demo.careful_env "demo" Demo.occupied Demo.home).1 = Done tt)
    by (vm_compute; reflexivity).
  split; [exact Hdone|].
  destruct (manifest_merge_is_shallow Demo.careful_env "demo" Demo.occupied Demo.home
              Demo.manifest Hdone) as (m & answers & Hdisk & _ & _ & _ & _ & Hother).
  - vm_compute; reflexivity.
  - exists m. split; [exact Hdisk|]. split.
    + rewrite Hother by absent. vm_compute; reflexivity.
    + apply Hother. absent.
Defined.

Lemma written_license_is_a_choice_witness :
  let r := run Demo.careful_env "demo" Demo.occupied Demo.home in
  let m := set_properties Demo.manifest
             [ ("name", JStr "demo");
               ("description", JStr "Boilerplate for JavaScript backend application");
               ("version", JStr "1.0.0");
               ("author", JStr "Ada");
               ("license", JStr "MIT");
               ("main", JStr "index.js") ] in
  WriteJson (path_join Demo.home "demo" ++ ["package.json"]) (JObj m) ∈ trace r.2
  ∧ ∃ c, c ∈ ["ISC"; "MIT"; "UNLICENSED"] ∧ m !! "license" = Some (JStr c).
Proof.
  intros r m.
  assert (Hin : WriteJson (path_join Demo.home "demo" ++ ["package.json"]) (JObj m)
                  ∈ trace r.2) by (vm_compute; present).
  split; [exact Hin|].
  destruct (written_license_is_a_choice Demo.careful_env "demo" Demo.occupied Demo.home)
    as (Hwritten & _).
  exact (Hwritten _ _ m Hin eq_refl).
Defined.

Lemma exit_statuses_witness :
  npm_install (path_join Demo.home "demo")
    ∈ trace (run Demo.npm_fails "demo" Demo.installed Demo.home).2
  ∧ exit_status (run Demo.npm_fails "demo" Demo.installed Demo.home).1 = Some 0%Z
  ∧ exit_status (run Demo.copy_fails "demo" Demo.installed Demo.home).1 = Some 1%Z.
Proof.
  assert (Hnpm : npm_install (path_join Demo.home "demo")
                   ∈ trace (run Demo.npm_fails "demo" Demo.installed Demo.home).2)
    by (vm_compute; present).
  split; [exact Hnpm|]. split.
  - destruct (exit_statuses Demo.npm_fails "demo" Demo.installed Demo.home)
      as (_ & _ & _ & _ & Hchild & _).
    apply Hchild. left. exact Hnpm.
  - destruct (exit_statuses Demo.copy_fails "demo" Demo.installed Demo.home)
      as (_ & _ & _ & Hcopy & _).
    apply Hcopy.
    + vm_compute; present.
    + left. vm_compute. eauto.
Defined.

Lemma declined_overwrite_aborts_witness :
  let r := run Demo.env "demo" Demo.occupied Demo.home in
  is_Some (Demo.occupied (path_join Demo.home "demo"))
  ∧ r.1 = Exited 0
  ∧ disk r.2 = Demo.occupied
  ∧ trace r.2 = [ExistsSync (path_join Demo.home "demo")].
Proof.
  assert (Hexists : is_Some (Demo.occupied (path_join Demo.home "demo")))
    by (vm_compute; eauto).
  split; [exact Hexists|].
  destruct (declined_overwrite_aborts Demo.env "demo" Demo.occupied Demo.home []
              Hexists (or_introl eq_refl))
    as (Hexit & _ & Hdisk & _ & Htrace & _).
  split; [exact Hexit|]. split; [exact Hdisk | exact Htrace].
Defined.

Lemma failed_install_is_tolerated_witness :
  let r := run Demo.npm_fails "demo" Demo.installed Demo.home in
  npm_install (path_join Demo.home "demo") ∈ trace r.2
  ∧ r.1 = Done tt
  ∧ [npm_install (path_join Demo.home "demo"); git_init (path_join Demo.home "demo")]
      `suffix_of` trace r.2
  ∧ completion_summary "demo" `suffix_of` console r.2.
Proof.
  intros r.
  assert (Hnpm : npm_install (path_join Demo.home "demo") ∈ trace r.2)
    by (vm_compute; present).
  split; [exact Hnpm|].
  destruct (failed_install_is_tolerated Demo.npm_fails "demo" Demo.installed Demo.home
              "Command failed with exit code 1: npm install" Hnpm eq_refl)
    as (Hdone & _ & Hgit & _ & _ & Hsummary).
  split; [exact Hdone|]. split; [exact Hgit | exact Hsummary].
Defined.

Lemma metadata_prompt_defaults_witness :
  path_basename (path_join Demo.home "demo") ≠ ""
  ∧ (metadata_setup Demo.env (path_join Demo.home "demo")
       (start Demo.installed Demo.home)).1
    = Done
        [ ("name", JStr "demo");
          ("description", JStr "Boilerplate for JavaScript backend application");
          ("version", JStr "1.0.0");
          ("author", JStr "");
          ("license", JStr "ISC");
          ("main", JStr "index.js") ].
Proof.
  assert (Hbase : path_basename (path_join Demo.home "demo") ≠ "")
    by (vm_compute; discriminate).
  split; [exact Hbase|].
  destruct (metadata_prompt_defaults Demo.env (path_join Demo.home "demo")
              (start Demo.installed Demo.home)) as (_ & Hdefaults & _).
  apply Hdefaults.
  - exact Hbase.
  - intros k Hk.
    repeat (apply elem_of_cons in Hk as [->|Hk]); try by apply elem_of_nil in Hk.
    all: by eexists.
  - by eexists.
Defined.

Lemma unvalidated_inputs_are_written_witness :
  let r := run Demo.careful_env "demo" Demo.occupied Demo.home in
  r.1 = Done tt
  ∧ operator Demo.careful_env "author" = [Line "Ada"]
  ∧ ∃ m,
      disk r.2 (path_join Demo.home "demo" ++ ["package.json"])
        = Some (File (Json (JObj m)))
      ∧ m !! "author" = Some (JStr "Ada").
Proof.
  assert (Hdone : (run Demo.careful_env "demo" Demo.occupied Demo.home).1 = Done tt)
    by (vm_compute; reflexivity).
  split; [exact Hdone|]. split; [reflexivity|].
  destruct (unvalidated_inputs_are_written Demo.careful_env "demo" Demo.occupied
              Demo.home Demo.manifest) as (_ & _ & _ & _ & Hwritten).
  destruct (Hwritten Hdone) as (m & Hdisk & Hlines).
  - vm_compute; reflexivity.
  - exists m. split; [exact Hdisk|].
    destruct (Hlines "author" "author:" "" "Ada" []) as [_ Hverbatim].
    + unfold npmInitQuestions. do 3 apply list_elem_of_further. apply list_elem_of_here.
    + reflexivity.
    + apply Hverbatim. discriminate.
Defined.

Lemma install_hint_iff_declined_witness :
  let r := run Demo.careful_env "demo" Demo.occupied Demo.home in
  r.1 = Done tt
  ∧ confirm_prompt true (operator Demo.careful_env "installDeps") = Some false
  ∧ npm_install_hint ∈ console r.2.
Proof.
  assert (Hdone : (run Demo.careful_env "demo" Demo.occupied Demo.home).1 = Done tt)
    by (vm_compute; reflexivity).
  split; [exact Hdone|]. split; [reflexivity|].
  destruct (install_hint_iff_declined Demo.careful_env "demo" Demo.occupied Demo.home
              Hdone) as [[_ Hhint] _].
  apply Hhint. reflexivity.
Defined.

(** * Further properties of the driver *)

(** ** What a run touches *)





(** ** The run that completes *)

Lemma merged_boxed v answers : boxed v → merged v answers = v.
Proof. by destruct v. Qed.

(** All there is to know of a run that completes. *)
Lemma completed_run_shape env initialProjectName d dir :
  let targetDir := path_join dir initialProjectName in
  let boilerplateDir := path_join (__dirname env) "boilerplate" in
  let r := run env initialProjectName d dir in
  let existed := bool_decide (is_Some (d targetDir)) in
  let d1 := if existed then disk_remove targetDir d else d in
  r.1 = Done tt →
  ∃ v answers installed,
    answers_to env (npmInitQuestions targetDir) answers
    ∧ confirm_prompt true (operator env "installDeps") = Some installed
    ∧ (existed = true → confirm_prompt false (operator env "overwrite") = Some true)
    ∧ is_Some (d1 boilerplateDir)
    ∧ disk_copy boilerplateDir targetDir d1 targetDir = Some Dir
    ∧ disk_copy boilerplateDir targetDir d1 (targetDir ++ ["package.json"])
      = Some (File (Json v))
    ∧ v ≠ JNull
    ∧ disk r.2
      = disk_write (targetDir ++ ["package.json"]) (File (Json (merged v answers)))
          (disk_copy boilerplateDir targetDir d1)
    ∧ cwd r.2 = targetDir
    ∧ trace r.2 = calls boilerplateDir targetDir existed installed (merged v answers).
Proof.
  intros targetDir boilerplateDir r existed d1. subst targetDir boilerplateDir r existed d1.
  change (wp (action env initialProjectName)
            (fun r w' =>
               r = Done tt →
               ∃ v answers installed,
                 answers_to env (npmInitQuestions (path_join dir initialProjectName)) answers
                 ∧ confirm_prompt true (operator env "installDeps") = Some installed
                 ∧ (bool_decide (is_Some (d (path_join dir initialProjectName))) = true →
                    confirm_prompt false (operator env "overwrite") = Some true)
                 ∧ is_Some
                     ((if bool_decide (is_Some (d (path_join dir initialProjectName)))
                       then disk_remove (path_join dir initialProjectName) d else d)
                        (path_join (__dirname env) "boilerplate"))
                 ∧ disk_copy (path_join (__dirname env) "boilerplate")
                     (path_join dir initialProjectName)
                     (if bool_decide (is_Some (d (path_join dir initialProjectName)))
                      then disk_remove (path_join dir initialProjectName) d else d)
                     (path_join dir initialProjectName) = Some Dir
                 ∧ disk_copy (path_join (__dirname env) "boilerplate")
                     (path_join dir initialProjectName)
                     (if bool_decide (is_Some (d (path_join dir initialProjectName)))
                      then disk_remove (path_join dir initialProjectName) d else d)
                     (path_join dir initialProjectName ++ ["package.json"])
                   = Some (File (Json v))
                 ∧ v ≠ JNull
                 ∧ disk w'
                   = disk_write (path_join dir initialProjectName ++ ["package.json"])
                       (File (Json (merged v answers)))
                       (disk_copy (path_join (__dirname env) "boilerplate")
                          (path_join dir initialProjectName)
                          (if bool_decide (is_Some (d (path_join dir initialProjectName)))
                           then disk_remove (path_join dir initialProjectName) d else d))
                 ∧ cwd w' = path_join dir initialProjectName
                 ∧ trace w'
                   = calls (path_join (__dirname env) "boilerplate")
                       (path_join dir initialProjectName)
                       (bool_decide (is_Some (d (path_join dir initialProjectName))))
                       installed (merged v answers))
            (start d dir)).
  wp_unfold. wp_exec.
  all: intros Hdone; try discriminate Hdone.
  all: rewrite path_join_file in *.
  all: match goal with H : bool_decide _ = _ |- _ => rewrite H in * end.
  all: match goal with
       | H : boxed ?v |- _ => eexists v, _, _; rewrite !(merged_boxed v _ H)
       | H : ?v = JObj _ |- _ => eexists v, _, _; rewrite H in *
       end.
  all: repeat (split; [first [eassumption | reflexivity | done | by intros -> ]|]).
  all: reflexivity.
Qed.

Lemma apart_below (p q rel : path) : apart p q → strip_prefix q (p ++ rel) = None.
Proof.
  intros [Hpq Hqp]. revert q Hpq Hqp.
  induction p as [|a p IH]; intros [|b q]; simpl; try discriminate; try reflexivity.
  case_bool_decide; [|by rewrite bool_decide_false by congruence].
  subst b. rewrite bool_decide_true by reflexivity. apply IH.
Qed.

Lemma disk_write_other (d : Disk) target n p : p ≠ target → disk_write target n d p = d p.
Proof. intros Hne. unfold disk_write. by rewrite bool_decide_false. Qed.

(** X2. In a run that completes, with the boilerplate and the target
    apart from each other, every entry of the boilerplate tree other than
    the manifest is found at the same place below the target, as it is in
    the boilerplate. *)
Theorem boilerplate_is_copied env initialProjectName d dir rel n :
  let targetDir := path_join dir initialProjectName in
  let boilerplateDir := path_join (__dirname env) "boilerplate" in
  let r := run env initialProjectName d dir in
  r.1 = Done tt →
  apart boilerplateDir targetDir →
  rel ≠ ["package.json"] →
  d (boilerplateDir ++ rel) = Some n →
  disk r.2 (targetDir ++ rel) = Some n.
Proof.
  intros targetDir boilerplateDir r Hdone Hapart Hrel Hsrc.
  destruct (completed_run_shape env initialProjectName d dir Hdone)
    as (v & answers & installed & _ & _ & _ & _ & _ & _ & _ & Hdisk & _).
  fold targetDir boilerplateDir r in Hdisk. rewrite Hdisk.
  rewrite disk_write_other by (intros E; by apply app_inv_head in E).
  unfold disk_copy. rewrite strip_prefix_app.
  destruct (bool_decide (is_Some (d targetDir))).
  - unfold disk_remove at 1. rewrite (apart_below _ _ rel Hapart). by rewrite Hsrc.
  - by rewrite Hsrc.
Qed.


(** X4. The external calls of a run that completes are, in this order and
    each once: the existence test, the removal if the target existed, the
    copy, the change of directory, the reading and the writing of the
    manifest, [npm install] if the operator accepted it, and [git init];
    both child processes run in the target directory, which is also the
    working directory in the end, and the value written is what the
    manifest file then holds. *)
Theorem completed_run_calls env initialProjectName d dir :
  let targetDir := path_join dir initialProjectName in
  let boilerplateDir := path_join (__dirname env) "boilerplate" in
  let r := run env initialProjectName d dir in
  r.1 = Done tt →
  ∃ written installed,
    confirm_prompt true (operator env "installDeps") = Some installed
    ∧ trace r.2 =
        [ExistsSync targetDir]
          ++ (if bool_decide (is_Some (d targetDir)) then [Remove targetDir] else [])
          ++ [ Copy boilerplateDir targetDir;
               Chdir targetDir;
               ReadJson (targetDir ++ ["package.json"]);
               WriteJson (targetDir ++ ["package.json"]) written ]
          ++ (if installed then [Execa "npm" ["install"] targetDir] else [])
          ++ [Execa "git" ["init"] targetDir]
    ∧ cwd r.2 = targetDir
    ∧ disk r.2 (targetDir ++ ["package.json"]) = Some (File (Json written)).
Proof.
  intros targetDir boilerplateDir r Hdone.
  destruct (completed_run_shape env initialProjectName d dir Hdone)
    as (v & answers & installed & _ & Hinstalled & _ & _ & _ & _ & _ & Hdisk & Hcwd & Htrace).
  exists (merged v answers), installed.
  split; [exact Hinstalled|]. split; [exact Htrace|]. split; [exact Hcwd|].
  fold targetDir boilerplateDir r in Hdisk. rewrite Hdisk. apply disk_write_same.
Qed.

(** X5. When the manifest of the boilerplate is JSON but no object (an
    array, a string, a number, a boolean), a run that completes writes it
    back as it was: the answers are set on nothing that is serialised.
    With [null] for a manifest no run completes. *)
Theorem manifest_that_is_no_object env initialProjectName d dir v :
  let targetDir := path_join dir initialProjectName in
  let boilerplateDir := path_join (__dirname env) "boilerplate" in
  let r := run env initialProjectName d dir in
  r.1 = Done tt →
  d (boilerplateDir ++ ["package.json"]) = Some (File (Json v)) →
  (∀ fields, v ≠ JObj fields) →
  v ≠ JNull ∧ disk r.2 (targetDir ++ ["package.json"]) = Some (File (Json v)).
Proof.
  intros targetDir boilerplateDir r Hdone Hv Hobj.
  destruct (completed_run_shape env initialProjectName d dir Hdone)
    as (v' & answers & installed & _ & _ & _ & _ & _ & Hread & Hnull & Hdisk & _).
  fold targetDir boilerplateDir r in Hdisk, Hread.
  assert (File (Json v') = File (Json v)) as [= ->].
  { destruct (bool_decide (is_Some (d targetDir))).
    - exact (copied_over _ _ _ _ _ _ Hv Hread).
    - exact (copied_fresh _ _ _ _ _ _ Hv Hread). }
  split; [exact Hnull|]. rewrite Hdisk, disk_write_same.
  destruct v; try reflexivity. by destruct (Hobj fields).
Qed.

(** ** What a run never does *)

(** A membership hypothesis in a console that is an explicit list around
    the entries of a prompt. *)
Ltac pick_shown H :=
  unfold chalk, plain in H; rewrite <- ?app_assoc in H; cbn [app] in H;
  repeat first
    [ apply elem_of_nil in H; contradiction
    | apply elem_of_cons in H as [H|H];
        [first [discriminate H | exfalso; lazy in H; congruence | idtac]|]
    | apply elem_of_app in H as [H|H];
        [exfalso;
         match goal with
         | Hes : Forall prompt_entry _ |- _ =>
             rewrite Forall_forall in Hes; exact (Hes _ H)
         end|]
    | match goal with
      | Hes : Forall prompt_entry ?es |- _ =>
          match type of H with
          | _ ∈ es => exfalso; rewrite Forall_forall in Hes; exact (Hes _ H)
          end
      end ].

(** X6. A run removes nothing but the target directory, and only when it
    existed and the operator accepted the overwrite; it starts [npm] only
    as [npm install] in the target directory, and only when the operator
    accepted the installation. *)
Theorem nothing_without_consent env initialProjectName d dir :
  let targetDir := path_join dir initialProjectName in
  let r := run env initialProjectName d dir in
  (∀ p, Remove p ∈ trace r.2 →
     p = targetDir
     ∧ is_Some (d targetDir)
     ∧ confirm_prompt false (operator env "overwrite") = Some true)
  ∧ (∀ args dir', Execa "npm" args dir' ∈ trace r.2 →
       args = ["install"]
       ∧ dir' = targetDir
       ∧ confirm_prompt true (operator env "installDeps") = Some true).
Proof.
  intros targetDir r. subst targetDir r.
  change (wp (action env initialProjectName)
            (fun _ w' =>
               (∀ p, Remove p ∈ trace w' →
                  p = path_join dir initialProjectName
                  ∧ is_Some (d (path_join dir initialProjectName))
                  ∧ confirm_prompt false (operator env "overwrite") = Some true)
               ∧ (∀ args dir', Execa "npm" args dir' ∈ trace w' →
                    args = ["install"]
                    ∧ dir' = path_join dir initialProjectName
                    ∧ confirm_prompt true (operator env "installDeps") = Some true))
            (start d dir)).
  wp_unfold. wp_exec.
  all: split; [intros p Hin | intros args dir' Hin]; pick Hin.
  all: simplify_eq.
  all: repeat split; try assumption.
  all: match goal with
       | H : bool_decide _ = true |- _ => by apply bool_decide_eq_true in H
       end.
Qed.

(** X7. The success banner is shown exactly in the runs that complete. *)
Theorem banner_iff_completed env initialProjectName d dir :
  let r := run env initialProjectName d dir in
  created_successfully initialProjectName ∈ console r.2 ↔ r.1 = Done tt.
Proof.
  intros r. subst r.
  change (wp (action env initialProjectName)
            (fun r w' => created_successfully initialProjectName ∈ console w' ↔ r = Done tt)
            (start d dir)).
  unfold created_successfully.
  wp_unfold. wp_exec.
  all: split; [intros Hin | intros Hdone].
  all: try discriminate Hdone.
  all: try (flatten; present).
  all: try reflexivity.
  all: pick_shown Hin.
Qed.

(** ** Failures of the steps that are tried *)

(** X8. Each of the three failure lines of the removal, the installation
    and the git initialisation is shown exactly when that call was made
    and failed: no failure goes unreported there, and none is reported
    that did not happen. *)
Theorem failure_reports_are_exact env initialProjectName d dir :
  let targetDir := path_join dir initialProjectName in
  let r := run env initialProjectName d dir in
  (SpinFail (chalk Red "Failed to remove existing directory.") ∈ console r.2
     ↔ Remove targetDir ∈ trace r.2 ∧ is_Some (fault env FsRemove))
  ∧ (SpinFail (chalk Red "Dependency installation failed!") ∈ console r.2
     ↔ npm_install targetDir ∈ trace r.2 ∧ is_Some (fault env NpmInstall))
  ∧ (SpinFail (chalk Red "Git initialization failed!") ∈ console r.2
     ↔ git_init targetDir ∈ trace r.2 ∧ is_Some (fault env GitInit)).
Proof.
  intros targetDir r. subst targetDir r.
  change (wp (action env initialProjectName)
            (fun _ w' =>
               (SpinFail (chalk Red "Failed to remove existing directory.") ∈ console w'
                  ↔ Remove (path_join dir initialProjectName) ∈ trace w'
                    ∧ is_Some (fault env FsRemove))
               ∧ (SpinFail (chalk Red "Dependency installation failed!") ∈ console w'
                  ↔ npm_install (path_join dir initialProjectName) ∈ trace w'
                    ∧ is_Some (fault env NpmInstall))
               ∧ (SpinFail (chalk Red "Git initialization failed!") ∈ console w'
                  ↔ git_init (path_join dir initialProjectName) ∈ trace w'
                    ∧ is_Some (fault env GitInit)))
            (start d dir)).
  unfold npm_install, git_init.
  wp_unfold. wp_exec.
  all: split; [|split].
  all: (split;
         [ intros Hin; pick_shown Hin; (split; [present | eauto])
         | intros [Hin [msg' Hmsg]]; pick Hin; first [congruence | flatten; present] ]).
Qed.

(** X9. In every run in which [git init] is started and fails, the
    failure is reported (the spinner fails and the error message is
    printed) and nothing else changes: [git init] is the last external
    call, the summary closes the output, with the install hint exactly
    when the installation was declined, and the run ends normally. *)
Theorem failed_git_init_is_tolerated env initialProjectName d dir msg :
  let targetDir := path_join dir initialProjectName in
  let r := run env initialProjectName d dir in
  git_init targetDir ∈ trace r.2 →
  fault env GitInit = Some msg →
  r.1 = Done tt
  ∧ [git_init targetDir] `suffix_of` trace r.2
  ∧ SpinFail (chalk Red "Git initialization failed!") ∈ console r.2
  ∧ LogError (chalk Red msg) ∈ console r.2
  ∧ ∃ installed,
      confirm_prompt true (operator env "installDeps") = Some installed
      ∧ closing_summary initialProjectName (negb installed) `suffix_of` console r.2.
Proof.
  intros targetDir r Hgit Hfault. revert Hgit. subst r targetDir.
  change (wp (action env initialProjectName)
            (fun r w' =>
               git_init (path_join dir initialProjectName) ∈ trace w' →
               r = Done tt
               ∧ [git_init (path_join dir initialProjectName)] `suffix_of` trace w'
               ∧ SpinFail (chalk Red "Git initialization failed!") ∈ console w'
               ∧ LogError (chalk Red msg) ∈ console w'
               ∧ ∃ installed,
                   confirm_prompt true (operator env "installDeps") = Some installed
                   ∧ closing_summary initialProjectName (negb installed)
                       `suffix_of` console w')
            (start d dir)).
  unfold git_init, closing_summary, created_successfully, npm_install_hint.
  wp_unfold. wp_exec.
  all: intros Hgit; pick Hgit.
  all: try congruence.
  all: simplify_eq; cbn [message].
  all: split; [reflexivity|]; split; [ends_with|]; split; [flatten; present|];
         split; [flatten; present|].
  all: eexists; split; [eassumption|]; cbn [negb app]; ends_with.
Qed.

(** X10. When the removal of the target or the copy of the boilerplate
    is made and fails, the failure is the last thing shown, with the
    message of the error, and the call is the last one made: nothing is
    copied after a failed removal, no manifest is read or written and no
    child process is started after either, and the working directory is
    where it was. *)
Theorem fatal_failures_stop_the_run env initialProjectName d dir msg :
  let targetDir := path_join dir initialProjectName in
  let boilerplateDir := path_join (__dirname env) "boilerplate" in
  let r := run env initialProjectName d dir in
  (Remove targetDir ∈ trace r.2 → fault env FsRemove = Some msg →
     trace r.2 = [ExistsSync targetDir; Remove targetDir]
     ∧ [ SpinFail (chalk Red "Failed to remove existing directory.");
         LogError (chalk Red msg) ] `suffix_of` console r.2
     ∧ cwd r.2 = dir)
  ∧ (Copy boilerplateDir targetDir ∈ trace r.2 → fault env FsCopy = Some msg →
     trace r.2 =
       [ExistsSync targetDir]
         ++ (if bool_decide (is_Some (d targetDir)) then [Remove targetDir] else [])
         ++ [Copy boilerplateDir targetDir]
     ∧ [ SpinFail (chalk Red "Error copying boilerplate!");
         LogError (chalk Red msg) ] `suffix_of` console r.2
     ∧ cwd r.2 = dir).
Proof.
  intros targetDir boilerplateDir r. subst targetDir boilerplateDir r.
  change (wp (action env initialProjectName)
            (fun _ w' =>
               (Remove (path_join dir initialProjectName) ∈ trace w' →
                fault env FsRemove = Some msg →
                trace w' = [ ExistsSync (path_join dir initialProjectName);
                             Remove (path_join dir initialProjectName) ]
                ∧ [ SpinFail (chalk Red "Failed to remove existing directory.");
                    LogError (chalk Red msg) ] `suffix_of` console w'
                ∧ cwd w' = dir)
               ∧ (Copy (path_join (__dirname env) "boilerplate")
                    (path_join dir initialProjectName) ∈ trace w' →
                  fault env FsCopy = Some msg →
                  trace w' =
                    [ExistsSync (path_join dir initialProjectName)]
                      ++ (if bool_decide (is_Some (d (path_join dir initialProjectName)))
                          then [Remove (path_join dir initialProjectName)] else [])
                      ++ [Copy (path_join (__dirname env) "boilerplate")
                            (path_join dir initialProjectName)]
                  ∧ [ SpinFail (chalk Red "Error copying boilerplate!");
                      LogError (chalk Red msg) ] `suffix_of` console w'
                  ∧ cwd w' = dir))
            (start d dir)).
  wp_unfold. wp_exec.
  all: split; intros Hin Hfault; pick Hin; try congruence.
  all: simplify_eq; cbn [message].
  all: try match goal with H : bool_decide _ = _ |- _ => rewrite H end.
  all: split; [reflexivity|]; split; [ends_with | reflexivity].
Qed.

Lemma prompts_cons e es :
  prompts (e :: es) =
    match e with
    | Prompt name _ => name :: prompts es
    | _ => prompts es
    end.
Proof. by destruct e. Qed.

(** X11. In a run that completes the questions put to the operator are,
    in this order: the overwrite confirmation if the target existed, the
    six questions of the metadata, and the confirmation of the
    installation. *)
Theorem questions_of_a_completed_run env initialProjectName d dir :
  let targetDir := path_join dir initialProjectName in
  let r := run env initialProjectName d dir in
  r.1 = Done tt →
  prompts (console r.2) =
    (if bool_decide (is_Some (d targetDir)) then ["overwrite"] else [])
      ++ ["name"; "description"; "version"; "author"; "license"; "main"]
      ++ ["installDeps"].
Proof.
  intros targetDir r. subst targetDir r.
  change (wp (action env initialProjectName)
            (fun r w' =>
               r = Done tt →
               prompts (console w') =
                 (if bool_decide (is_Some (d (path_join dir initialProjectName)))
                  then ["overwrite"] else [])
                   ++ collected ++ ["installDeps"])
            (start d dir)).
  wp_unfold. wp_exec.
  all: intros Hdone; try discriminate Hdone.
  all: match goal with H : bool_decide _ = _ |- _ => rewrite H end.
  all: match goal with H : prompts _ = _ |- _ => rename H into Hasked end.
  all: flatten; rewrite npmInitQuestions_names in Hasked.
  all: rewrite !prompts_cons; cbn beta iota.
  all: rewrite prompts_app, Hasked; reflexivity.
Qed.

(** ** The manifest that is written, and the name in it *)

Lemma metadata_answer_is_a_string env targetDir q a :
  q ∈ npmInitQuestions targetDir → answered env q a → ∃ s, a = JStr s.
Proof.
  intros Hq Ha. unfold npmInitQuestions in Hq.
  repeat (apply elem_of_cons in Hq as [->|Hq]); try by apply elem_of_nil in Hq.
  all: first [ apply answered_input in Ha as (s & -> & _); by exists s
             | apply answered_choice in Ha as (s & _ & ->); by exists s ].
Qed.

(** X12. Whatever object a run hands to [fs.writeJson] has all six
    collected fields, each holding a string, and the name among them is
    never the empty string. *)
Theorem written_fields_are_strings env initialProjectName d dir p m :
  let r := run env initialProjectName d dir in
  WriteJson p (JObj m) ∈ trace r.2 →
  (∀ k, k ∈ ["name"; "description"; "version"; "author"; "license"; "main"] →
     ∃ s, m !! k = Some (JStr s))
  ∧ ∃ name, m !! "name" = Some (JStr name) ∧ name ≠ "".
Proof.
  intros r Hin.
  destruct (written_manifest env initialProjectName d dir p (JObj m) Hin)
    as (_ & answers & Hanswers & Hobj).
  destruct (Hobj m eq_refl) as [fields ->].
  pose proof (metadata_answers_NoDup _ _ _ Hanswers) as Hnodup.
  split.
  - intros k Hk.
    change (k ∈ collected) in Hk.
    rewrite <- (npmInitQuestions_names (path_join dir initialProjectName)) in Hk.
    apply list_elem_of_fmap in Hk as (q & -> & Hq).
    destruct (answers_lookup _ _ _ _ Hanswers Hq) as (a & Ha_in & Ha).
    destruct (metadata_answer_is_a_string _ _ _ _ Hq Ha) as [s ->].
    exists s. by apply set_properties_set.
  - destruct (answers_lookup _ _ _
                (Input "name" "package name:"
                   (path_basename (path_join dir initialProjectName))
                   (Some validate_name)) Hanswers)
      as (a & Ha_in & Ha); [apply list_elem_of_here|].
    apply answered_input in Ha as (s & -> & Hvalid).
    exists s. split; [by apply set_properties_set | by apply validate_name_nonempty].
Qed.

Lemma segments_plain s : slash_free s = true → segments s = [s].
Proof.
  induction s as [|c s IH]; simpl; [reflexivity|].
  case_bool_decide; simpl; [discriminate|].
  intros Hs. by rewrite (IH Hs).
Qed.

Lemma path_join_component base name :
  component name → path_join base name = base ++ [name].
Proof.
  intros (Hempty & Hdot & Hdots & Hslash).
  unfold path_join. rewrite (segments_plain _ Hslash). simpl.
  unfold push_segment. by rewrite !bool_decide_false.
Qed.

(** X13. For a project name that is a single path component, the target
    is the directory of that name in the current directory, and the name
    is the default of the package name prompt: in a run that completes,
    on a boilerplate whose manifest is an object, an operator who leaves
    the name at its default gets the project name into the manifest. *)
Theorem default_name_is_the_project_name env initialProjectName d dir m0 rest :
  let r := run env initialProjectName d dir in
  component initialProjectName →
  r.1 = Done tt →
  d (path_join (__dirname env) "boilerplate" ++ ["package.json"])
    = Some (File (Json (JObj m0))) →
  operator env "name" = Line "" :: rest →
  path_join dir initialProjectName = dir ++ [initialProjectName]
  ∧ path_basename (path_join dir initialProjectName) = initialProjectName
  ∧ ∃ m,
      disk r.2 (dir ++ [initialProjectName; "package.json"])
        = Some (File (Json (JObj m)))
      ∧ m !! "name" = Some (JStr initialProjectName).
Proof.
  intros r Hname Hdone Hm0 Hline.
  pose proof (path_join_component dir _ Hname) as Htarget.
  assert (Hbase : path_basename (path_join dir initialProjectName) = initialProjectName).
  { rewrite Htarget. unfold path_basename. apply last_last. }
  split; [exact Htarget|]. split; [exact Hbase|].
  destruct (completed_run_manifest env initialProjectName d dir m0 Hdone Hm0)
    as (answers & Hanswers & Hdisk).
  exists (set_properties m0 answers). split.
  - rewrite Htarget, <- app_assoc in Hdisk. exact Hdisk.
  - destruct (answers_lookup _ _ _
                (Input "name" "package name:"
                   (path_basename (path_join dir initialProjectName))
                   (Some validate_name)) Hanswers)
      as (a & Ha_in & Ha); [apply list_elem_of_here|].
    assert (Hvalid : validate_name
                       (filterInput (path_basename (path_join dir initialProjectName)) "")
                     = Valid).
    { unfold filterInput. rewrite bool_decide_true by reflexivity.
      rewrite Hbase. apply validate_name_nonempty. by destruct Hname. }
    rewrite (answered_input_first _ _ _ _ (Some validate_name) _ _ _ Hline Hvalid Ha)
      in Ha_in.
    unfold filterInput in Ha_in. rewrite bool_decide_true in Ha_in by reflexivity.
    rewrite Hbase in Ha_in.
    apply set_properties_set; [|exact Ha_in].
    eapply metadata_answers_NoDup, Hanswers.
Qed.

(** X14. The name prompt insists.  When its default is empty (the target
    directory has no base name), each empty line submitted is answered
    with "Package name cannot be empty." and the prompt stays open; the
    first line that is not empty is the name.  When the default is not
    empty the first line settles the name at once. *)
Theorem name_prompt_insists n :
  (∀ s rest, s ≠ "" →
     input_prompt "" validate_name (replicate n (Line "") ++ Line s :: rest)
     = (replicate n (Invalid "Package name cannot be empty."), Some s))
  ∧ input_prompt "" validate_name (replicate n (Line ""))
    = (replicate n (Invalid "Package name cannot be empty."), None)
  ∧ (∀ default typed rest, default ≠ "" →
       input_prompt default validate_name (Line typed :: rest)
       = ([], Some (if bool_decide (typed = "") then default else typed))).
Proof.
  split; [|split].
  - intros s rest Hs. induction n as [|n IH]; simpl.
    + unfold filterInput. rewrite bool_decide_false by exact Hs.
      apply validate_name_nonempty in Hs. by rewrite Hs.
    + by rewrite IH.
  - induction n as [|n IH]; simpl; [reflexivity|]. by rewrite IH.
  - intros default typed rest Hdefault. simpl. unfold filterInput.
    case_bool_decide.
    + apply validate_name_nonempty in Hdefault. by rewrite Hdefault.
    + assert (Hvalid : validate_name typed = Valid) by by apply validate_name_nonempty.
      by rewrite Hvalid.
Qed.

(** ** The further properties at work on the sample installation *)


Lemma boilerplate_is_copied_witness :
  let r := run Demo.env "demo" Demo.installed Demo.home in
  r.1 = Done tt
  ∧ disk r.2 (path_join Demo.home "demo" ++ ["src"; "index.js"])
    = Some (File (Blob "import dotenv from 'dotenv'")).
Proof.
  assert (Hdone : (run Demo.env "demo" Demo.installed Demo.home).1 = Done tt)
    by (vm_compute; reflexivity).
  split; [exact Hdone|].
  apply (boilerplate_is_copied Demo.env "demo" Demo.installed Demo.home).
  - exact Hdone.
  - split; vm_compute; reflexivity.
  - discriminate.
  - vm_compute; reflexivity.
Defined.


Lemma completed_run_calls_witness :
  let r := run Demo.env "demo" Demo.installed Demo.home in
  r.1 = Done tt ∧ cwd r.2 = path_join Demo.home "demo" ∧ length (trace r.2) = 7.
Proof.
  assert (Hdone : (run Demo.env "demo" Demo.installed Demo.home).1 = Done tt)
    by (vm_compute; reflexivity).
  split; [exact Hdone|].
  destruct (completed_run_calls Demo.env "demo" Demo.installed Demo.home Hdone)
    as (written & installed & Hinstalled & Htrace & Hcwd & _).
  split; [exact Hcwd|]. rewrite Htrace.
  injection Hinstalled as <-. reflexivity.
Defined.

Lemma manifest_that_is_no_object_witness :
  let r := run Demo.env "demo" Cases.listed Demo.home in
  r.1 = Done tt
  ∧ disk r.2 (path_join Demo.home "demo" ++ ["package.json"]) = Some (File (Json (JArr []))).
Proof.
  assert (Hdone : (run Demo.env "demo" Cases.listed Demo.home).1 = Done tt)
    by (vm_compute; reflexivity).
  split; [exact Hdone|].
  apply (manifest_that_is_no_object Demo.env "demo" Cases.listed Demo.home (JArr []) Hdone).
  - vm_compute; reflexivity.
  - discriminate.
Defined.

Lemma nothing_without_consent_witness :
  let r := run Demo.careful_env "demo" Cases.cluttered Demo.home in
  Remove (path_join Demo.home "demo") ∈ trace r.2
  ∧ confirm_prompt false (operator Demo.careful_env "overwrite") = Some true.
Proof.
  intros r.
  assert (Hin : Remove (path_join Demo.home "demo") ∈ trace r.2) by (vm_compute; present).
  split; [exact Hin|].
  destruct (nothing_without_consent Demo.careful_env "demo" Cases.cluttered Demo.home)
    as (Hremove & _).
  exact (proj2 (proj2 (Hremove _ Hin))).
Defined.

Lemma failed_git_init_is_tolerated_witness :
  let r := run Cases.git_fails "demo" Demo.installed Demo.home in
  git_init (path_join Demo.home "demo") ∈ trace r.2
  ∧ r.1 = Done tt
  ∧ closing_summary "demo" true `suffix_of` console r.2.
Proof.
  intros r.
  assert (Hgit : git_init (path_join Demo.home "demo") ∈ trace r.2) by (vm_compute; present).
  split; [exact Hgit|].
  destruct (failed_git_init_is_tolerated Cases.git_fails "demo" Demo.installed Demo.home
              "Command failed with exit code 127: git init" Hgit eq_refl)
    as (Hdone & _ & _ & _ & installed & Hinstalled & Hsummary).
  split; [exact Hdone|]. injection Hinstalled as <-. exact Hsummary.
Defined.

Lemma fatal_failures_stop_the_run_witness :
  let r := run Demo.copy_fails "demo" Demo.installed Demo.home in
  Copy (path_join Demo.tool "boilerplate") (path_join Demo.home "demo") ∈ trace r.2
  ∧ trace r.2 =
      [ ExistsSync (path_join Demo.home "demo");
        Copy (path_join Demo.tool "boilerplate") (path_join Demo.home "demo") ]
  ∧ cwd r.2 = Demo.home.
Proof.
  intros r.
  assert (Hin : Copy (path_join Demo.tool "boilerplate") (path_join Demo.home "demo")
                  ∈ trace r.2) by (vm_compute; present).
  split; [exact Hin|].
  destruct (fatal_failures_stop_the_run Demo.copy_fails "demo" Demo.installed Demo.home
              "EACCES: permission denied, mkdir") as (_ & Hcopy).
  destruct (Hcopy Hin eq_refl) as (Htrace & _ & Hcwd).
  split; [exact Htrace | exact Hcwd].
Defined.

Lemma questions_of_a_completed_run_witness :
  let r := run Demo.careful_env "demo" Cases.cluttered Demo.home in
  r.1 = Done tt
  ∧ prompts (console r.2) =
      [ "overwrite"; "name"; "description"; "version"; "author"; "license"; "main";
        "installDeps" ].
Proof.
  assert (Hdone : (run Demo.careful_env "demo" Cases.cluttered Demo.home).1 = Done tt)
    by (vm_compute; reflexivity).
  split; [exact Hdone|].
  exact (questions_of_a_completed_run Demo.careful_env "demo" Cases.cluttered Demo.home
           Hdone).
Defined.

Lemma written_fields_are_strings_witness :
  let r := run Demo.careful_env "demo" Demo.occupied Demo.home in
  let m := set_properties Demo.manifest
             [ ("name", JStr "demo");
               ("description", JStr "Boilerplate for JavaScript backend application");
               ("version", JStr "1.0.0");
               ("author", JStr "Ada");
               ("license", JStr "MIT");
               ("main", JStr "index.js") ] in
  WriteJson (path_join Demo.home "demo" ++ ["package.json"]) (JObj m) ∈ trace r.2
  ∧ ∃ name, m !! "name" = Some (JStr name) ∧ name ≠ "".
Proof.
  intros r m.
  assert (Hin : WriteJson (path_join Demo.home "demo" ++ ["package.json"]) (JObj m)
                  ∈ trace r.2) by (vm_compute; present).
  split; [exact Hin|].
  exact (proj2 (written_fields_are_strings Demo.careful_env "demo" Demo.occupied Demo.home
                  _ m Hin)).
Defined.

Lemma default_name_is_the_project_name_witness :
  let r := run Demo.env "demo" Demo.installed Demo.home in
  component "demo"
  ∧ r.1 = Done tt
  ∧ ∃ m,
      disk r.2 (Demo.home ++ ["demo"; "package.json"]) = Some (File (Json (JObj m)))
      ∧ m !! "name" = Some (JStr "demo").
Proof.
  assert (Hname : component "demo") by (repeat split; discriminate).
  assert (Hdone : (run Demo.env "demo" Demo.installed Demo.home).1 = Done tt)
    by (vm_compute; reflexivity).
  split; [exact Hname|]. split; [exact Hdone|].
  destruct (default_name_is_the_project_name Demo.env "demo" Demo.installed Demo.home
              Demo.manifest [] Hname Hdone) as (_ & _ & Hm).
  - vm_compute; reflexivity.
  - reflexivity.
  - exact Hm.
Defined.

Lemma name_prompt_insists_witness :
  input_prompt "" validate_name [Line ""; Line ""; Line "api"; Line "later"]
  = ( [ Invalid "Package name cannot be empty.";
        Invalid "Package name cannot be empty." ],
      Some "api" ).
Proof.
  destruct (name_prompt_insists 2) as (Hloop & _).
  apply (Hloop "api" [Line "later"]). discriminate.
Defined.
